(** * The streaming progress engine of the research UI (App component)

    A shallow embedding of the state held by [App] (its [useState] cells and
    the [eventSourceRef]) and of the handlers that change it:
    [eventSource.onmessage], [eventSource.onerror], [streamResults] and
    [resetResearch].  State updates are applied in program order, one
    message at a time, so every handler is a function from state to state.

    Payload fields are read as the component's types declare them: text
    fields are strings, counts and query numbers are integers, and a field
    the message does not carry is [None] (JavaScript's [undefined]).

    Around the stream, the file also covers the form submission
    ([handleFormSubmit] with its request data), the conditions under which
    [App] shows each panel, the status box ([ResearchStatus]), the loader
    colour and what the export handlers take from the state.

    Left out: the scroll helper (it touches the DOM and reads a flag through
    the handler's closure), the network and DOM side of the export
    handlers, and the location input. *)

From Stdlib Require Import ZArith String List Bool Lia.
From stdpp Require Import base option list gmap strings fin_maps pretty.

Local Open Scope Z_scope.
Local Open Scope string_scope.

(** ** JavaScript value conventions *)

(** [`${v}`] for a text field and for a numeric field. *)
Definition str_of_text (v : option string) : string :=
  match v with Some s => s | None => "undefined" end.

Definition str_of_num (v : option Z) : string :=
  match v with Some z => pretty z | None => "undefined" end.

(** Truthiness: the empty string, zero and [undefined] are falsy. *)
Definition truthy_text (v : option string) : bool :=
  match v with Some s => negb (String.eqb s "") | None => false end.

Definition truthy_num (v : option Z) : bool :=
  match v with Some z => negb (Z.eqb z 0) | None => false end.

(** [v || d] with a string default, [a || b] on numbers, and [v || 0]. *)
Definition text_or (v : option string) (d : string) : string :=
  match v with
  | Some s => if String.eqb s "" then d else s
  | None => d
  end.

Definition num_or (a b : option Z) : option Z :=
  if truthy_num a then a else b.

Definition num_or0 (v : option Z) : Z :=
  match v with
  | Some z => if Z.eqb z 0 then 0 else z
  | None => 0
  end.

(** [list.includes(x)] on string literals. *)
Definition includes (l : list string) (x : string) : bool :=
  existsb (String.eqb x) l.

(** ** The decoded message *)

Module Data.
Record t := mk {
  type : option string;
  step : option string;
  query : option string;
  query_number : option Z;
  category : option string;
  message : option string;
  company : option string;
  total : option Z;
  enriched : option Z;
  total_docs : option Z;
  content_length : option Z;
  chunk : option string;
  report : option string;
  error : option string
}.

(** A message that carries only its [type]. *)
Definition of_type (k : string) : t :=
  mk (Some k) None None None None None None None None None None None None None.
End Data.

(** [data.type === k] *)
Definition type_is (d : Data.t) (k : string) : bool :=
  match Data.type d with Some s => String.eqb s k | None => false end.

(** ** The component state *)

Inductive Phase := search | enrichment | briefing | complete.

(** A display step is a label, or, when [stepMap[nodeName]] finds a member
    that every object inherits ([constructor], [toString], ...), that
    member. *)
Inductive StepName :=
| Label (s : string)
| Inherited (prop : string).

Record ResearchStatusType := { step : StepName; message : string }.

Record Details := { report : string }.
Record ResearchOutput := { summary : string; details : Details }.

Record Query := {
  q_text : option string;
  q_number : option Z;
  q_category : option string
}.

Record StreamingQuery := {
  sq_text : option string;
  sq_number : option Z;
  sq_category : option string;
  sq_isComplete : bool
}.

Record Counter := { total : Z; enriched : Z }.

Record EventSource := { es_job : string; es_closed : bool }.

(** The callbacks handed to [setTimeout], with their delays. *)
Inductive Timer :=
| ResetState
| CollapseQueries
| CollapseEnrichment
| CollapseBriefing.

Definition delay (t : Timer) : nat :=
  match t with
  | ResetState => 300
  | CollapseQueries => 1000
  | CollapseEnrichment => 1000
  | CollapseBriefing => 2000
  end%nat.

Record State := mkState {
  isResearching : bool;
  status : option ResearchStatusType;
  output : option ResearchOutput;
  error : option string;
  isComplete : bool;
  eventSourceRef : option EventSource;
  currentPhase : option Phase;
  isResetting : bool;
  queries : list Query;
  streamingQueries : gmap string StreamingQuery;
  isQueriesExpanded : bool;
  enrichmentCounts : option (gmap string Counter);
  briefingStatus : gmap string bool;
  isEnrichmentExpanded : bool;
  isBriefingExpanded : bool;
  isReportStreaming : bool;
  (** every [setTimeout] call made so far, oldest first *)
  timeouts : list Timer
}.

Definition noBriefings : gmap string bool :=
  <["company" := false]> (<["industry" := false]>
    (<["financial" := false]> (<["news" := false]> ∅))).

(** The [useState] defaults. *)
Definition initialState : State :=
  {| isResearching := false; status := None; output := None; error := None;
     isComplete := false; eventSourceRef := None; currentPhase := None;
     isResetting := false; queries := []; streamingQueries := ∅;
     isQueriesExpanded := true; enrichmentCounts := None;
     briefingStatus := noBriefings; isEnrichmentExpanded := true;
     isBriefingExpanded := true; isReportStreaming := false;
     timeouts := [] |}.

(** *** Setters *)

Definition setIsResearching (v : bool) (s : State) : State :=
  let 'mkState _ b c d e f g h i j k l m n o p q := s in
  mkState v b c d e f g h i j k l m n o p q.

Definition setStatus (v : option ResearchStatusType) (s : State) : State :=
  let 'mkState a _ c d e f g h i j k l m n o p q := s in
  mkState a v c d e f g h i j k l m n o p q.

Definition setOutput (v : option ResearchOutput) (s : State) : State :=
  let 'mkState a b _ d e f g h i j k l m n o p q := s in
  mkState a b v d e f g h i j k l m n o p q.

Definition setError (v : option string) (s : State) : State :=
  let 'mkState a b c _ e f g h i j k l m n o p q := s in
  mkState a b c v e f g h i j k l m n o p q.

Definition setIsComplete (v : bool) (s : State) : State :=
  let 'mkState a b c d _ f g h i j k l m n o p q := s in
  mkState a b c d v f g h i j k l m n o p q.

Definition setEventSourceRef (v : option EventSource) (s : State) : State :=
  let 'mkState a b c d e _ g h i j k l m n o p q := s in
  mkState a b c d e v g h i j k l m n o p q.

Definition setCurrentPhase (v : option Phase) (s : State) : State :=
  let 'mkState a b c d e f _ h i j k l m n o p q := s in
  mkState a b c d e f v h i j k l m n o p q.

Definition setIsResetting (v : bool) (s : State) : State :=
  let 'mkState a b c d e f g _ i j k l m n o p q := s in
  mkState a b c d e f g v i j k l m n o p q.

Definition setQueries (v : list Query) (s : State) : State :=
  let 'mkState a b c d e f g h _ j k l m n o p q := s in
  mkState a b c d e f g h v j k l m n o p q.

Definition setStreamingQueries (v : gmap string StreamingQuery) (s : State) : State :=
  let 'mkState a b c d e f g h i _ k l m n o p q := s in
  mkState a b c d e f g h i v k l m n o p q.

Definition setIsQueriesExpanded (v : bool) (s : State) : State :=
  let 'mkState a b c d e f g h i j _ l m n o p q := s in
  mkState a b c d e f g h i j v l m n o p q.

Definition setEnrichmentCounts (v : option (gmap string Counter)) (s : State) : State :=
  let 'mkState a b c d e f g h i j k _ m n o p q := s in
  mkState a b c d e f g h i j k v m n o p q.

Definition setBriefingStatus (v : gmap string bool) (s : State) : State :=
  let 'mkState a b c d e f g h i j k l _ n o p q := s in
  mkState a b c d e f g h i j k l v n o p q.

Definition setIsEnrichmentExpanded (v : bool) (s : State) : State :=
  let 'mkState a b c d e f g h i j k l m _ o p q := s in
  mkState a b c d e f g h i j k l m v o p q.

Definition setIsBriefingExpanded (v : bool) (s : State) : State :=
  let 'mkState a b c d e f g h i j k l m n _ p q := s in
  mkState a b c d e f g h i j k l m n v p q.

Definition setIsReportStreaming (v : bool) (s : State) : State :=
  let 'mkState a b c d e f g h i j k l m n o _ q := s in
  mkState a b c d e f g h i j k l m n o v q.

(** [setTimeout(t, delay t)] *)
Definition setTimeout (t : Timer) (s : State) : State :=
  let 'mkState a b c d e f g h i j k l m n o p q := s in
  mkState a b c d e f g h i j k l m n o p (q ++ [t]).

(** [eventSource.close()] on the handle the component holds. *)
Definition closeEventSource (s : State) : State :=
  setEventSourceRef
    (match eventSourceRef s with
     | Some es => Some {| es_job := es_job es; es_closed := true |}
     | None => None
     end) s.

(** ** Display labels *)

Definition stepMap : gmap string string :=
  list_to_map
    [("grounding", "Search"); ("financial_analyst", "Search");
     ("news_scanner", "Search"); ("industry_analyst", "Search");
     ("company_analyst", "Search"); ("collector", "Search");
     ("curator", "Enriching"); ("enricher", "Enriching");
     ("briefing", "Briefing"); ("editor", "Finalizing")].

(** Names that a lookup on an object literal finds on [Object.prototype]. *)
Definition objectPrototype : list string :=
  ["constructor"; "hasOwnProperty"; "isPrototypeOf"; "propertyIsEnumerable";
   "toLocaleString"; "toString"; "valueOf"; "__proto__";
   "__defineGetter__"; "__defineSetter__"; "__lookupGetter__";
   "__lookupSetter__"].

(** [stepMap[nodeName] || nodeName]; every label in the table is truthy. *)
Definition getStepName (nodeName : string) : StepName :=
  match stepMap !! nodeName with
  | Some label => Label label
  | None =>
      if includes objectPrototype nodeName then Inherited nodeName
      else Label nodeName
  end.

Definition searchSteps : list string :=
  ["grounding"; "financial_analyst"; "news_scanner"; "industry_analyst";
   "company_analyst"; "collector"].

Definition enrichmentSteps : list string := ["curator"; "enricher"].

(** ** The message handler *)

(** The key [`${data.category}_${data.query_number}`]. *)
Definition queryKey (d : Data.t) : string :=
  str_of_text (Data.category d) +:+ "_" +:+ str_of_num (Data.query_number d).

(** [prev?.details?.report || ''] *)
Definition currentReport (s : State) : string :=
  match output s with
  | Some o => report (details o)
  | None => ""
  end.

(** [Object.values(b).every(status => status)] *)
Definition allBriefingsComplete (b : gmap string bool) : bool :=
  forallb (fun v : bool => v) (map_to_list b).*2.

(** The first [if]: progress messages that carry a step. *)
Definition onProgress (d : Data.t) (s : State) : State :=
  if type_is d "progress" && truthy_text (Data.step d) then
    let nodeName := str_of_text (Data.step d) in
    let s1 :=
      setStatus (Some {| step := getStepName nodeName;
                         message := "Processing " +:+ nodeName +:+ "..." |}) s in
    if includes searchSteps nodeName then setCurrentPhase (Some search) s1
    else if includes enrichmentSteps nodeName then
      setCurrentPhase (Some enrichment) s1
    else if String.eqb nodeName "briefing" then
      setCurrentPhase (Some briefing) s1
    else s1
  else s.

Definition onQueryGenerating (d : Data.t) (s : State) : State :=
  let s1 := setCurrentPhase (Some search) s in
  let s2 :=
    setStatus (Some {| step := Label "Search";
                       message := "Query " +:+ str_of_num (Data.query_number d)
                                  +:+ ": " +:+ str_of_text (Data.query d) |}) s1 in
  setStreamingQueries
    (<[queryKey d := {| sq_text := Data.query d;
                        sq_number := Data.query_number d;
                        sq_category := Data.category d;
                        sq_isComplete := false |}]> (streamingQueries s2)) s2.

Definition onQueryGenerated (d : Data.t) (s : State) : State :=
  let s1 := setCurrentPhase (Some search) s in
  let s2 :=
    setStatus (Some {| step := Label "Search";
                       message := "Generated: " +:+ str_of_text (Data.query d) |}) s1 in
  let s3 :=
    setQueries (queries s2 ++ [{| q_text := Data.query d;
                                  q_number := Data.query_number d;
                                  q_category := Data.category d |}]) s2 in
  setStreamingQueries (delete (queryKey d) (streamingQueries s3)) s3.

Definition onResearchInit (d : Data.t) (s : State) : State :=
  setStatus (Some {| step := Label "Initializing";
                     message := text_or (Data.message d)
                       ("Initiating research for " +:+ str_of_text (Data.company d)) |})
    (setCurrentPhase (Some search) s).

Definition onCrawlStart (d : Data.t) (s : State) : State :=
  setStatus (Some {| step := Label "Website Crawl";
                     message := text_or (Data.message d) "Crawling company website" |})
    (setCurrentPhase (Some search) s).

Definition onCuration (d : Data.t) (s : State) : State :=
  let s1 := setCurrentPhase (Some enrichment) s in
  let s2 :=
    setStatus (Some {| step := Label "Curating data";
                       message := text_or (Data.message d)
                         ("Curating " +:+ str_of_text (Data.category d) +:+ " documents") |}) s1 in
  let s3 :=
    if truthy_text (Data.category d) then
      setEnrichmentCounts
        (Some (<[str_of_text (Data.category d) :=
                   {| total := num_or0 (Data.total d); enriched := 0 |}]>
                 (default ∅ (enrichmentCounts s2)))) s2
    else s2 in
  setTimeout CollapseQueries s3.

(** The counter update of an enrichment message: [undefined] stays
    [undefined]; otherwise the entry of the category is written, with the
    total taken from the old entry, else from the message, else 0. *)
Definition enrichCounts (d : Data.t) (e : Z)
    (prev : option (gmap string Counter)) : option (gmap string Counter) :=
  match prev with
  | None => None
  | Some m =>
      let category := str_of_text (Data.category d) in
      Some (<[category :=
                {| total := num_or0 (num_or (total <$> m !! category) (Data.total d));
                   enriched := e |}]> m)
  end.

Definition onEnrichment (d : Data.t) (s : State) : State :=
  let s1 := setCurrentPhase (Some enrichment) s in
  let s2 :=
    setStatus (Some {| step := Label "Enriching";
                       message := text_or (Data.message d)
                         "Enriching documents with additional content" |}) s1 in
  match Data.enriched d with
  | Some e =>
      if truthy_text (Data.category d) then
        setEnrichmentCounts (enrichCounts d e (enrichmentCounts s2)) s2
      else s2
  | None => s2
  end.

Definition onBriefingStart (d : Data.t) (s : State) : State :=
  let s1 := setCurrentPhase (Some briefing) s in
  let s2 :=
    setStatus (Some {| step := Label "Generating briefings";
                       message := "Creating " +:+ str_of_text (Data.category d)
                                  +:+ " briefing from "
                                  +:+ str_of_num (Data.total_docs d)
                                  +:+ " documents" |}) s1 in
  setTimeout CollapseEnrichment s2.

Definition onBriefingComplete (d : Data.t) (s : State) : State :=
  let s1 := setCurrentPhase (Some briefing) s in
  let s2 :=
    setStatus (Some {| step := Label "Briefing complete";
                       message := str_of_text (Data.category d)
                                  +:+ " briefing generated ("
                                  +:+ str_of_num (Data.content_length d)
                                  +:+ " characters)" |}) s1 in
  if truthy_text (Data.category d) then
    let newBriefingStatus :=
      <[str_of_text (Data.category d) := true]> (briefingStatus s2) in
    let s3 :=
      if allBriefingsComplete newBriefingStatus
      then setTimeout CollapseBriefing s2 else s2 in
    setBriefingStatus newBriefingStatus s3
  else s2.

Definition onReportCompilation (d : Data.t) (s : State) : State :=
  setStatus (Some {| step := Label "Finalizing report";
                     message := text_or (Data.message d) "Compiling final report" |})
    (setCurrentPhase (Some briefing) s).

Definition onReportChunk (d : Data.t) (s : State) : State :=
  let s1 := setIsReportStreaming true s in
  let s2 :=
    setOutput (Some {| summary := "";
                       details := {| report := currentReport s1
                                               +:+ str_of_text (Data.chunk d) |} |}) s1 in
  setStatus (Some {| step := Label "Finalizing report";
                     message := "Generating final report..." |}) s2.

Definition onComplete (d : Data.t) (s : State) : State :=
  let s1 := setIsReportStreaming false s in
  let s2 :=
    setOutput (Some {| summary := "";
                       details := {| report := str_of_text (Data.report d) |} |}) s1 in
  let s3 :=
    setStatus (Some {| step := Label "Complete";
                       message := "Research completed successfully" |}) s2 in
  closeEventSource (setIsResearching false (setIsComplete true s3)).

Definition onErrorEvent (d : Data.t) (s : State) : State :=
  closeEventSource (setIsResearching false (setError (Data.error d) s)).

(** The [if / else if] chain that follows the progress block. *)
Definition onEvent (d : Data.t) (s : State) : State :=
  if type_is d "query_generating" then onQueryGenerating d s
  else if type_is d "query_generated" then onQueryGenerated d s
  else if type_is d "research_init" then onResearchInit d s
  else if type_is d "crawl_start" then onCrawlStart d s
  else if type_is d "curation" then onCuration d s
  else if type_is d "enrichment" then onEnrichment d s
  else if type_is d "briefing_start" then onBriefingStart d s
  else if type_is d "briefing_complete" then onBriefingComplete d s
  else if type_is d "report_compilation" then onReportCompilation d s
  else if type_is d "report_chunk" && truthy_text (Data.chunk d) then
    onReportChunk d s
  else if type_is d "complete" && truthy_text (Data.report d) then
    onComplete d s
  else if type_is d "error" then onErrorEvent d s
  else s.

(** The body of the [try]: the progress block, then the chain. *)
Definition handleData (s : State) (d : Data.t) : State :=
  onEvent d (onProgress d s).

(** [eventSource.onmessage]: a payload that does not parse ([None]) is
    logged and dropped. *)
Definition onmessage (s : State) (raw : option Data.t) : State :=
  match raw with
  | Some d => handleData s d
  | None => s
  end.

(** [eventSource.onerror] *)
Definition onerror (s : State) : State :=
  closeEventSource
    (setIsResearching false (setError (Some "Connection lost or server error") s)).

(** Messages delivered in order on one stream. *)
Definition process (s : State) (ds : list Data.t) : State :=
  fold_left handleData ds s.

(** ** Opening a stream and resetting *)

(** [streamResults(jobId)]: a new handle is stored in the ref. *)
Definition streamResults (jobId : string) (s : State) : State :=
  setEventSourceRef (Some {| es_job := jobId; es_closed := false |}) s.

(** [resetResearch()]: raises [isResetting] and defers the clearing. *)
Definition resetResearch (s : State) : State :=
  setTimeout ResetState (setIsResetting true s).

(** The callback [resetResearch] hands to [setTimeout]. *)
Definition resetCallback (s : State) : State :=
  setIsResetting false
    (setIsReportStreaming false
      (setIsBriefingExpanded true
        (setIsEnrichmentExpanded true
          (setIsQueriesExpanded true
            (setBriefingStatus noBriefings
              (setEnrichmentCounts None
                (setStreamingQueries ∅
                  (setQueries []
                    (setCurrentPhase None
                      (setIsComplete false
                        (setError None
                          (setOutput None
                            (setStatus None s))))))))))))).

(** Running the callback of a timer when it expires. *)
Definition fire (t : Timer) (s : State) : State :=
  match t with
  | ResetState => resetCallback s
  | CollapseQueries => setIsQueriesExpanded false s
  | CollapseEnrichment => setIsEnrichmentExpanded false s
  | CollapseBriefing => setIsBriefingExpanded false s
  end.

(** The object [eventSourceRef.current] holds, at the moment the reference
    is overwritten. *)
Definition leftBehind (s : State) : list EventSource :=
  match eventSourceRef s with
  | Some es => [es]
  | None => []
  end.

(** [if (eventSourceRef.current) { eventSourceRef.current.close();
    eventSourceRef.current = null; }], with the object left behind. *)
Definition clearExistingConnectionIn (s : State) (old : list EventSource)
    : State * list EventSource :=
  match eventSourceRef s with
  | Some _ =>
      let s1 := closeEventSource s in
      (setEventSourceRef None s1, (old ++ leftBehind s1)%list)
  | None => (s, old)
  end.

(** The part of [handleFormSubmit] that releases a previous stream, as it
    acts on the state: close the handle, then clear the ref. *)
Definition clearExistingConnection (s : State) : State :=
  fst (clearExistingConnectionIn s []).

(** ** Reading the handler *)

(** The phase a message names, read off the branches of the handler; [None]
    when its branch writes no phase. *)
Definition eventPhase (d : Data.t) : option Phase :=
  if type_is d "progress" then
    if truthy_text (Data.step d) then
      let nodeName := str_of_text (Data.step d) in
      if includes searchSteps nodeName then Some search
      else if includes enrichmentSteps nodeName then Some enrichment
      else if String.eqb nodeName "briefing" then Some briefing
      else None
    else None
  else if existsb (type_is d)
            ["query_generating"; "query_generated"; "research_init"; "crawl_start"]
  then Some search
  else if existsb (type_is d) ["curation"; "enrichment"] then Some enrichment
  else if existsb (type_is d)
            ["briefing_start"; "briefing_complete"; "report_compilation"]
  then Some briefing
  else None.

(** The order null, search, enrichment, briefing, complete. *)
Definition phaseRank (p : option Phase) : nat :=
  match p with
  | None => 0
  | Some search => 1
  | Some enrichment => 2
  | Some briefing => 3
  | Some complete => 4
  end.

(** The kinds the handler has a branch for. *)
Definition recognizedKinds : list string :=
  ["progress"; "query_generating"; "query_generated"; "research_init";
   "crawl_start"; "curation"; "enrichment"; "briefing_start";
   "briefing_complete"; "report_compilation"; "report_chunk"; "complete";
   "error"].

(** The counter of a category, when the mapping exists and has one. *)
Definition counterOf (c : string) (s : State) : option Counter :=
  match enrichmentCounts s with
  | Some m => m !! c
  | None => None
  end.

(** The record a query_generated message appends. *)
Definition finalizedOf (d : Data.t) : Query :=
  {| q_text := Data.query d;
     q_number := Data.query_number d;
     q_category := Data.category d |}.

(** How many finalized records carry the identity of message [d]. *)
Definition sameIdentity (d : Data.t) (q : Query) : bool :=
  bool_decide (q_category q = Data.category d)
  && bool_decide (q_number q = Data.query_number d).

Definition finalizedCount (d : Data.t) (s : State) : nat :=
  length (List.filter (sameIdentity d) (queries s)).

(** How many collapse-briefings timers have been requested. *)
Definition isCollapseBriefing (t : Timer) : bool :=
  match t with CollapseBriefing => true | _ => false end.

Definition collapseBriefingCount (s : State) : nat :=
  length (List.filter isCollapseBriefing (timeouts s)).

(** ** Sample messages *)

Definition progressMsg (nodeName : string) : Data.t :=
  Data.mk (Some "progress") (Some nodeName)
    None None None None None None None None None None None None.

Definition queryMsg (kind text : string) (c : string) (n : Z) : Data.t :=
  Data.mk (Some kind) None (Some text) (Some n) (Some c)
    None None None None None None None None None.

Definition curationMsg (c : string) (t : Z) : Data.t :=
  Data.mk (Some "curation") None None None (Some c) None None (Some t)
    None None None None None None.

Definition enrichmentMsg (c : string) (e : Z) : Data.t :=
  Data.mk (Some "enrichment") None None None (Some c) None None None (Some e)
    None None None None None.

Definition briefingCompleteMsg (c : string) : Data.t :=
  Data.mk (Some "briefing_complete") None None None (Some c)
    None None None None None None None None None.

Definition chunkMsg (c : string) : Data.t :=
  Data.mk (Some "report_chunk") None None None None None None None None
    None None (Some c) None None.

Definition completeMsg (r : option string) : Data.t :=
  Data.mk (Some "complete") None None None None None None None None
    None None None r None.

(** A job whose stream has just been opened. *)
Definition startedJob : State := streamResults "job-1" initialState.

(** ** The page around the stream *)

(** *** What the page shows: the conditions in the JSX of [App] *)

(** [error && ...] *)
Definition showError (s : State) : bool := truthy_text (error s).

(** [output && output.details && ...] *)
Definition showReport (s : State) : bool :=
  match output s with Some _ => true | None => false end.

(** [currentPhase === 'briefing' || currentPhase === 'complete'] *)
Definition showBriefings (s : State) : bool :=
  match currentPhase s with
  | Some briefing | Some complete => true
  | _ => false
  end.

(** [(currentPhase === 'enrichment' || ... 'briefing' || ... 'complete')
    && enrichmentCounts] *)
Definition showCuration (s : State) : bool :=
  match currentPhase s with
  | Some enrichment | Some briefing | Some complete =>
      match enrichmentCounts s with Some _ => true | None => false end
  | _ => false
  end.

(** [queries.length > 0 || Object.keys(streamingQueries).length > 0] *)
Definition showQueries (s : State) : bool :=
  Nat.ltb 0 (length (queries s)) || Nat.ltb 0 (size (streamingQueries s)).

(** *** The status box (component [ResearchStatus]) *)

Inductive Icon := XCircle | CheckCircle2 | Loader2.

Record StatusView := { icon : Icon; heading : StepName; text : string }.

(** [hay.includes(needle)] on strings. *)
Fixpoint string_includes (needle hay : string) : bool :=
  String.prefix needle hay
  || match hay with
     | EmptyString => false
     | String _ rest => string_includes needle rest
     end.

(** [status?.step === label] *)
Definition step_is (st : ResearchStatusType) (label : string) : bool :=
  match step st with
  | Label l => String.eqb l label
  | Inherited _ => false
  end.

(** The component: nothing without a status; otherwise the icon chosen by
    the chain of conditionals, the step, and [error || status.message]. *)
Definition ResearchStatus (status : option ResearchStatusType)
    (error : option string) (isComplete : bool)
    (currentPhase : option Phase) : option StatusView :=
  match status with
  | None => None
  | Some st =>
      Some {| icon :=
                if truthy_text error then XCircle
                else if step_is st "Complete" || isComplete then CheckCircle2
                else if match currentPhase with
                        | Some search | Some enrichment => true
                        | _ => false
                        end
                        || (step_is st "Processing"
                            && string_includes "scraping" (message st))
                then Loader2
                else if match currentPhase with
                        | Some briefing => true
                        | _ => false
                        end
                then Loader2
                else Loader2;
              heading := step st;
              text := text_or error (message st) |}
  end.

(** The status box as [App] renders it. *)
Definition statusBox (s : State) : option StatusView :=
  ResearchStatus (status s) (error s) (isComplete s) (currentPhase s).

(** *** The loader colour *)

Definition colors : list string :=
  ["#468BFF"; "#8FBCFA"; "#FE363B"; "#FF9A9D"; "#FDBB11"; "#F6D785"].

(** One run of the interval callback on [currentIndex]. *)
Definition nextIndex (currentIndex : nat) : nat :=
  ((currentIndex + 1) mod length colors)%nat.

(** [currentIndex] after [n] runs, from the 0 the effect starts with. *)
Fixpoint indexAfter (n : nat) : nat :=
  match n with
  | O => O
  | S n' => nextIndex (indexAfter n')
  end.

(** The colour the [n]-th run (n > 0) passes to [setLoaderColor]. *)
Definition loaderColorAfter (n : nat) : string :=
  nth (indexAfter n) colors "".

(** *** The form submission *)

(** Text here is a sequence of code units below 256. *)

(** [s.startsWith(p)] *)
Definition startsWith (s p : string) : bool := String.prefix p s.

(** White space as [trim] sees it, among code units below 256: tab, line
    feed, vertical tab, form feed, carriage return, space, no-break
    space. *)
Definition isWhiteSpace (c : Ascii.ascii) : bool :=
  existsb (Nat.eqb (Ascii.nat_of_ascii c)) [9; 10; 11; 12; 13; 32; 160]%nat.

Fixpoint trimStart (s : string) : string :=
  match s with
  | EmptyString => EmptyString
  | String c rest => if isWhiteSpace c then trimStart rest else s
  end.

Fixpoint trimEnd (s : string) : string :=
  match s with
  | EmptyString => EmptyString
  | String c rest =>
      match trimEnd rest with
      | EmptyString => if isWhiteSpace c then EmptyString else String c EmptyString
      | kept => String c kept
      end
  end.

(** [s.trim()] *)
Definition trim (s : string) : string := trimEnd (trimStart s).

(** [s.split(sep)] for a one-character separator: the empty string gives
    one empty piece. *)
Fixpoint split (sep : Ascii.ascii) (s : string) : list string :=
  match s with
  | EmptyString => [EmptyString]
  | String c rest =>
      if Ascii.eqb c sep then EmptyString :: split sep rest
      else match split sep rest with
           | piece :: pieces => String c piece :: pieces
           | [] => [String c EmptyString]
           end
  end.

(** [pieces.join(sep)] *)
Fixpoint join (sep : string) (pieces : list string) : string :=
  match pieces with
  | [] => EmptyString
  | [piece] => piece
  | piece :: rest => piece +:+ sep +:+ join sep rest
  end.

Definition comma : Ascii.ascii := Ascii.ascii_of_nat 44.

Definition nonEmpty (c : string) : bool := negb (String.eqb c "").

(** [formData.competitors ? formData.competitors.split(',').map(c =>
    c.trim()).filter(c => c) : []] *)
Definition parseCompetitors (competitors : string) : list string :=
  if nonEmpty competitors
  then List.filter nonEmpty (map trim (split comma competitors))
  else [].

(** [formattedCompanyUrl] *)
Definition formatCompanyUrl (companyUrl : string) : option string :=
  if nonEmpty companyUrl then
    if startsWith companyUrl "http://" || startsWith companyUrl "https://"
    then Some companyUrl
    else Some ("https://" +:+ companyUrl)
  else None.

(** [v || undefined] *)
Definition orUndefined (v : string) : option string :=
  if nonEmpty v then Some v else None.

Inductive ToneType :=
| Objective | Formal | Analytical | Persuasive | Informal | Critical.

Record FormData := {
  companyName : string;
  companyUrl : string;
  companyHq : string;
  companyIndustry : string;
  competitors : string;
  tone : ToneType
}.

Record RequestData := {
  rq_company : string;
  rq_company_url : option string;
  rq_industry : option string;
  rq_hq_location : option string;
  rq_competitors : list string;
  rq_tone : ToneType
}.

Definition requestData (formData : FormData) : RequestData :=
  {| rq_company := companyName formData;
     rq_company_url := formatCompanyUrl (companyUrl formData);
     rq_industry := orUndefined (companyIndustry formData);
     rq_hq_location := orUndefined (companyHq formData);
     rq_competitors := parseCompetitors (competitors formData);
     rq_tone := tone formData |}.

(** How the request ended: something was thrown by [fetch] or
    [response.json()] ([Some m] for an [Error] with message [m]), or a
    response came back with its [ok] flag, status and [job_id]. *)
Inductive Outcome :=
| Threw (message : option string)
| Responded (ok : bool) (status : Z) (job_id : option string).

(** The state cells of [App] that the stream handlers do not touch. *)
Record Page := {
  app : State;
  originalCompanyName : string;
  isGeneratingPdf : bool;
  isCopied : bool
}.

(** [handleFormSubmit] up to the request.  When the previous job is
    complete the reset runs and its callback expires during the 300 ms
    wait (it was registered first with the same delay). *)
Definition prepareSubmit (s : State) : State :=
  let s1 := setError None s in
  let s2 := if isComplete s then fire ResetState (resetResearch s1) else s1 in
  let s3 := clearExistingConnection s2 in
  setStatus (Some {| step := Label "Processing";
                     message := "Starting research..." |})
    (setIsResearching true s3).

(** The [catch] of [handleFormSubmit]. *)
Definition submitFailed (msg : string) (s : State) : State :=
  setIsResearching false (setError (Some msg) s).

(** [handleFormSubmit], given how the request ended. *)
Definition handleFormSubmit (p : Page) (formData : FormData)
    (outcome : Outcome) : Page :=
  let s := prepareSubmit (app p) in
  {| app :=
       match outcome with
       | Threw (Some m) => submitFailed m s
       | Threw None => submitFailed "Failed to start research" s
       | Responded false st _ =>
           submitFailed ("HTTP error! status: " +:+ pretty st) s
       | Responded true _ job_id =>
           if truthy_text job_id
           then streamResults (str_of_text job_id) s
           else submitFailed "No job ID received" s
       end;
     originalCompanyName := companyName formData;
     isGeneratingPdf := isGeneratingPdf p;
     isCopied := isCopied p |}.

(** *** Exports *)

(** The body [handleGeneratePdf] posts, unless its guard
    [!output || isGeneratingPdf] returns first: the report and
    [originalCompanyName || output.details.report]. *)
Definition pdfRequest (p : Page) : option (string * string) :=
  match output (app p) with
  | Some o =>
      if isGeneratingPdf p then None
      else Some (report (details o),
                 text_or (Some (originalCompanyName p)) (report (details o)))
  | None => None
  end.

(** [`${originalCompanyName || 'research_report'}${ext}`] *)
Definition downloadName (p : Page) (ext : string) : string :=
  text_or (Some (originalCompanyName p)) "research_report" +:+ ext.

(** The file [handleDownloadMarkdown] offers (name and content), unless
    its guard [!output?.details?.report] returns first. *)
Definition markdownDownload (p : Page) : option (string * string) :=
  if nonEmpty (currentReport (app p))
  then Some (downloadName p ".md", currentReport (app p))
  else None.

(** The text [handleCopyToClipboard] writes, under the same guard. *)
Definition clipboardText (p : Page) : option string :=
  if nonEmpty (currentReport (app p)) then Some (currentReport (app p)) else None.

(** ** Reading a run of messages *)

(** The text a message adds to the report. *)
Definition chunkText (d : Data.t) : string :=
  if type_is d "report_chunk" then text_or (Data.chunk d) "" else "".

(** A message that ends the job: an error, or a complete with a report. *)
Definition isTerminal (d : Data.t) : bool :=
  type_is d "error" || (type_is d "complete" && truthy_text (Data.report d)).

Definition isTimer (t t' : Timer) : bool :=
  match t, t' with
  | ResetState, ResetState | CollapseQueries, CollapseQueries
  | CollapseEnrichment, CollapseEnrichment
  | CollapseBriefing, CollapseBriefing => true
  | _, _ => false
  end.

(** How many timers of one sort have been requested. *)
Definition timerCount (t : Timer) (s : State) : nat :=
  length (List.filter (isTimer t) (timeouts s)).

(** How many messages of one kind a run holds. *)
Definition kindCount (k : string) (ds : list Data.t) : nat :=
  length (List.filter (fun d => type_is d k) ds).

(** Every streaming entry is unfinished and stored under the key of its
    own category and number. *)
Definition wellKeyed (m : gmap string StreamingQuery) : Prop :=
  forall k e, m !! k = Some e ->
    sq_isComplete e = false /\
    k = str_of_text (sq_category e) +:+ "_" +:+ str_of_num (sq_number e).

(** An output, when there is one, holds a non-empty report. *)
Definition reportNonEmpty (s : State) : Prop :=
  forall o, output s = Some o -> report (details o) <> "".

(** The report buffer after one message, from the buffer before it. *)
Definition reportStep (buffer : string) (d : Data.t) : string :=
  if type_is d "complete" && truthy_text (Data.report d)
  then str_of_text (Data.report d)
  else buffer +:+ chunkText d.

(** A handle after [close()]. *)
Definition closed (es : EventSource) : EventSource :=
  {| es_job := es_job es; es_closed := true |}.

(** The timers one message requests in state [s]. *)
Definition timersOf (s : State) (d : Data.t) : list Timer :=
  if type_is d "curation" then [CollapseQueries]
  else if type_is d "briefing_start" then [CollapseEnrichment]
  else if type_is d "briefing_complete" && truthy_text (Data.category d)
          && allBriefingsComplete
               (<[str_of_text (Data.category d) := true]> (briefingStatus s))
  then [CollapseBriefing]
  else [].

(** What a job has gathered so far. *)
Definition gathered (s : State) :=
  (status s, output s, currentPhase s, queries s, streamingQueries s,
   enrichmentCounts s, briefingStatus s, isComplete s, timeouts s).


(** [s] holds the character [a]. *)
Fixpoint hasChar (a : Ascii.ascii) (s : string) : bool :=
  match s with
  | EmptyString => false
  | String c rest => Ascii.eqb c a || hasChar a rest
  end.

(** [s] is empty or starts with a character that is not white space. *)
Definition startsClean (s : string) : Prop :=
  match s with
  | EmptyString => True
  | String c _ => isWhiteSpace c = false
  end.

(** The phase that goes with a display label. *)
Definition labelPhase (label : string) : option Phase :=
  if String.eqb label "Search" then Some search
  else if String.eqb label "Enriching" then Some enrichment
  else if String.eqb label "Briefing" then Some briefing
  else None.

(** ** The streams a page has opened *)













(** ** Dispatch lemmas *)

Lemma type_is_kind (d : Data.t) (k : string) :
  type_is d k = true -> forall k', type_is d k' = String.eqb k k'.
Proof.
  unfold type_is. destruct (Data.type d) as [t|]; [|discriminate].
  intros H k'. apply String.eqb_eq in H. now subst.
Qed.

Lemma onProgress_other (d : Data.t) (s : State) :
  type_is d "progress" = false -> onProgress d s = s.
Proof. unfold onProgress. now intros ->. Qed.

Ltac dispatch H :=
  unfold handleData;
  rewrite onProgress_other by (rewrite (type_is_kind _ _ H); reflexivity);
  unfold onEvent; rewrite !(type_is_kind _ _ H); try reflexivity.

Lemma handleData_query_generating d s :
  type_is d "query_generating" = true -> handleData s d = onQueryGenerating d s.
Proof. intros H. dispatch H. Qed.

Lemma handleData_query_generated d s :
  type_is d "query_generated" = true -> handleData s d = onQueryGenerated d s.
Proof. intros H. dispatch H. Qed.

Lemma handleData_curation d s :
  type_is d "curation" = true -> handleData s d = onCuration d s.
Proof. intros H. dispatch H. Qed.

Lemma handleData_enrichment d s :
  type_is d "enrichment" = true -> handleData s d = onEnrichment d s.
Proof. intros H. dispatch H. Qed.

Lemma handleData_briefing_complete d s :
  type_is d "briefing_complete" = true -> handleData s d = onBriefingComplete d s.
Proof. intros H. dispatch H. Qed.

Lemma handleData_report_chunk d s :
  type_is d "report_chunk" = true ->
  handleData s d = if truthy_text (Data.chunk d) then onReportChunk d s else s.
Proof. intros H. dispatch H. Qed.

Lemma handleData_complete d s :
  type_is d "complete" = true ->
  handleData s d = if truthy_text (Data.report d) then onComplete d s else s.
Proof. intros H. dispatch H. Qed.

Lemma handleData_progress d s :
  type_is d "progress" = true -> handleData s d = onProgress d s.
Proof.
  intros H. unfold handleData, onEvent.
  rewrite !(type_is_kind _ _ H). reflexivity.
Qed.

(** A message of no recognized kind runs no branch. *)
Lemma handleData_unrecognized d s :
  (forall k, In k recognizedKinds -> type_is d k = false) ->
  handleData s d = s.
Proof.
  intros H. unfold handleData.
  rewrite onProgress_other by (apply H; cbn; tauto).
  unfold onEvent.
  repeat (rewrite H by (cbn; tauto); cbn [andb]).
  reflexivity.
Qed.

(** ** Phase *)

Ltac crush_state s :=
  destruct s; cbn; repeat case_match; cbn; try reflexivity.

Lemma currentPhase_onProgress d s :
  currentPhase (onProgress d s) =
  match (if type_is d "progress" then
           if truthy_text (Data.step d) then
             if includes searchSteps (str_of_text (Data.step d)) then Some search
             else if includes enrichmentSteps (str_of_text (Data.step d))
                  then Some enrichment
             else if String.eqb (str_of_text (Data.step d)) "briefing"
                  then Some briefing
             else None
           else None
         else None) with
  | Some p => Some p
  | None => currentPhase s
  end.
Proof.
  unfold onProgress.
  destruct (type_is d "progress"), (truthy_text (Data.step d)); cbn [andb];
    try reflexivity.
  destruct (includes searchSteps _); [now destruct s|].
  destruct (includes enrichmentSteps _); [now destruct s|].
  destruct (String.eqb _ "briefing"); now destruct s.
Qed.

Lemma currentPhase_onEvent d s :
  type_is d "progress" = false ->
  currentPhase (onEvent d s) =
  match eventPhase d with Some p => Some p | None => currentPhase s end.
Proof.
  intros Hp. unfold eventPhase. rewrite Hp. unfold onEvent, type_is in *.
  destruct (Data.type d) as [k|]; [|reflexivity].
  cbn [existsb orb].
  repeat match goal with
  | |- context [String.eqb k ?lit] =>
      destruct (String.eqb_spec k lit) as [->|?]; cbn [orb andb]
  end;
  try solve [ unfold onQueryGenerating, onQueryGenerated, onResearchInit,
                onCrawlStart, onCuration, onEnrichment, onBriefingStart,
                onBriefingComplete, onReportCompilation, onReportChunk,
                onComplete, onErrorEvent, closeEventSource;
              crush_state s ].
Qed.

Lemma currentPhase_handleData s d :
  currentPhase (handleData s d) =
  match eventPhase d with Some p => Some p | None => currentPhase s end.
Proof.
  destruct (type_is d "progress") eqn:Hp.
  - rewrite (handleData_progress _ _ Hp), currentPhase_onProgress.
    unfold eventPhase. now rewrite Hp.
  - unfold handleData. rewrite (onProgress_other _ _ Hp).
    now apply currentPhase_onEvent.
Qed.

(** No branch of the handler writes the phase complete. *)
Lemma eventPhase_never_complete (d : Data.t) : eventPhase d <> Some complete.
Proof. unfold eventPhase. repeat case_match; discriminate. Qed.

(** C1.  The claim holds of what the component states and fails on the
    handler.  After a curation and a progress message with step briefing
    the phase is briefing and the briefings and curation panels are shown
    (the panels are to stay visible once shown); a query_generated message
    then writes search over briefing, and both panels are gone. *)
Theorem phase_regression_hides_panels :
  let s := process startedJob [curationMsg "news" 7; progressMsg "briefing"] in
  let s' := handleData s (queryMsg "query_generated" "acme revenue" "news" 1) in
  (currentPhase s = Some briefing /\
   showBriefings s = true /\ showCuration s = true) /\
  (currentPhase s' = Some search /\
   showBriefings s' = false /\ showCuration s' = false) /\
  ~ (phaseRank (currentPhase s) <= phaseRank (currentPhase s'))%nat.
Proof. vm_compute. repeat split. lia. Qed.

(** ** Unrecognized kinds and unmapped steps *)

Lemma unmapped_step_names_no_phase (n : string) :
  stepMap !! n = None ->
  includes searchSteps n = false /\
  includes enrichmentSteps n = false /\
  String.eqb n "briefing" = false.
Proof.
  intros H. unfold includes, searchSteps, enrichmentSteps. cbn [existsb].
  repeat match goal with
  | |- context [String.eqb n ?lit] =>
      destruct (String.eqb_spec n lit) as [->|?];
        [vm_compute in H; discriminate|]
  end.
  now cbn.
Qed.

(** C9, as stated, fails.  A message of a kind the handler has no branch
    for sets no status at all, so no display step equals its identifier. *)
Lemma unknown_kind_sets_no_step :
  let d := Data.of_type "heartbeat" in
  (forall k, In k recognizedKinds -> type_is d k = false) /\
  status (handleData startedJob d) = None /\
  step <$> status (handleData startedJob d) <> Some (Label "heartbeat").
Proof.
  cbv zeta. split; [|split; [reflexivity|discriminate]].
  intros k Hk. cbn in Hk.
  repeat (destruct Hk as [<-|Hk]; [reflexivity|]). contradiction.
Qed.

(** C9, amended.  A message whose kind is not one of the recognized kinds
    changes nothing: status and phase stay as they were.  The pass-through
    of the raw identifier belongs to progress messages: one whose step is
    not in the label table (and is not a name every object inherits) sets
    the display step to that step identifier and leaves the phase
    unchanged. *)
Theorem unknown_kind_ignored_unmapped_step_passes_through :
  (forall s d,
      (forall k, In k recognizedKinds -> type_is d k = false) ->
      handleData s d = s) /\
  (forall s d n,
      type_is d "progress" = true ->
      Data.step d = Some n -> n <> "" ->
      stepMap !! n = None -> includes objectPrototype n = false ->
      status (handleData s d) =
        Some {| step := Label n; message := "Processing " +:+ n +:+ "..." |} /\
      currentPhase (handleData s d) = currentPhase s).
Proof.
  split; [intros s d H; now apply handleData_unrecognized|].
  intros s d n Ht Hs Hn Hmap Hproto.
  destruct (unmapped_step_names_no_phase n Hmap) as (E1 & E2 & E3).
  rewrite (handleData_progress _ _ Ht). unfold onProgress, getStepName.
  rewrite Ht, Hs. cbn [str_of_text truthy_text andb].
  apply String.eqb_neq in Hn. rewrite Hn. cbn [negb].
  rewrite E1, E2, E3, Hmap, Hproto. now destruct s.
Qed.

Lemma unknown_kind_ignored_unmapped_step_passes_through_witness :
  handleData startedJob (Data.of_type "heartbeat") = startedJob /\
  status (handleData startedJob (progressMsg "planner")) =
    Some {| step := Label "planner"; message := "Processing planner..." |} /\
  currentPhase (handleData startedJob (progressMsg "planner")) =
    currentPhase startedJob.
Proof.
  split.
  - apply (proj1 unknown_kind_ignored_unmapped_step_passes_through).
    intros k Hk. cbn in Hk.
    repeat (destruct Hk as [<-|Hk]; [reflexivity|]). contradiction.
  - apply (proj2 unknown_kind_ignored_unmapped_step_passes_through
             startedJob (progressMsg "planner") "planner");
      [reflexivity|reflexivity|discriminate|reflexivity|reflexivity].
Defined.

(** ** The terminal message without a report *)

(** C10.  A complete message whose report is absent or the empty string
    passes the guard of no branch: the state after it is the state before
    it, so the report, phase, status and completion flag are unchanged, the
    job stays in progress and the stream handle stays as it was. *)
Theorem complete_without_report_is_dropped (s : State) (d : Data.t) :
  type_is d "complete" = true ->
  Data.report d = None \/ Data.report d = Some "" ->
  handleData s d = s /\ onmessage s (Some d) = s.
Proof.
  intros Ht Hr. cbn [onmessage].
  rewrite (handleData_complete _ _ Ht).
  destruct Hr as [-> | ->]; now cbn.
Qed.

Lemma complete_without_report_is_dropped_witness :
  let s := process startedJob [chunkMsg "Hello "; chunkMsg "world"] in
  (handleData s (completeMsg None) = s /\
   onmessage s (Some (completeMsg None)) = s) /\
  (handleData s (completeMsg (Some "")) = s /\
   onmessage s (Some (completeMsg (Some ""))) = s).
Proof.
  split.
  - apply complete_without_report_is_dropped; [reflexivity|now left].
  - apply complete_without_report_is_dropped; [reflexivity|now right].
Defined.

(** ** The report buffer *)

Lemma append_empty_r (a : string) : a +:+ "" = a.
Proof.
  induction a as [|ch a IH]; [reflexivity|].
  change (String ch (a +:+ "") = String ch a). now rewrite IH.
Qed.

Lemma append_assoc (a b c : string) : (a +:+ b) +:+ c = a +:+ b +:+ c.
Proof.
  induction a as [|ch a IH]; [reflexivity|].
  change (String ch ((a +:+ b) +:+ c) = String ch (a +:+ b +:+ c)).
  now rewrite IH.
Qed.

Lemma text_or_falsy (c : string) : truthy_text (Some c) = false -> c = "".
Proof.
  cbn. destruct (String.eqb_spec c ""); [trivial|discriminate].
Qed.

Lemma currentReport_chunk (s : State) (d : Data.t) (c : string) :
  type_is d "report_chunk" = true -> Data.chunk d = Some c ->
  currentReport (handleData s d) = currentReport s +:+ c.
Proof.
  intros Ht Hc. rewrite (handleData_report_chunk _ _ Ht), Hc.
  destruct (truthy_text (Some c)) eqn:E.
  - unfold onReportChunk. rewrite Hc. now destruct s.
  - rewrite (text_or_falsy _ E). now rewrite append_empty_r.
Qed.

Lemma currentReport_chunks (cs : list string) :
  forall s, currentReport (process s (map chunkMsg cs)) =
            currentReport s +:+ fold_right String.append "" cs.
Proof.
  induction cs as [|c cs IH]; intros s; cbn [map fold_right].
  - cbn. now rewrite append_empty_r.
  - change (process s (chunkMsg c :: map chunkMsg cs))
      with (process (handleData s (chunkMsg c)) (map chunkMsg cs)).
    rewrite IH, (currentReport_chunk s (chunkMsg c) c) by reflexivity.
    apply append_assoc.
Qed.

(** C6.  A report_chunk message appends its chunk to the report buffer, so
    a run of chunks leaves the buffer extended by their concatenation in
    arrival order; a complete message with a report replaces the buffer
    by that report.  Chunks "Hello " and "world" give "Hello world", and
    complete with report "FINAL" after them leaves exactly "FINAL". *)
Theorem report_chunks_append_then_complete_replaces :
  (forall s d c,
      type_is d "report_chunk" = true -> Data.chunk d = Some c ->
      currentReport (handleData s d) = currentReport s +:+ c) /\
  (forall s cs,
      currentReport (process s (map chunkMsg cs)) =
      currentReport s +:+ fold_right String.append "" cs) /\
  (forall s d r,
      type_is d "complete" = true -> Data.report d = Some r -> r <> "" ->
      output (handleData s d) =
        Some {| summary := ""; details := {| report := r |} |} /\
      currentReport (handleData s d) = r) /\
  currentReport (process startedJob [chunkMsg "Hello "; chunkMsg "world"])
    = "Hello world" /\
  currentReport (process startedJob [chunkMsg "Hello "; chunkMsg "world";
                                     completeMsg (Some "FINAL")])
    = "FINAL".
Proof.
  split; [exact currentReport_chunk|].
  split; [intros s cs; apply currentReport_chunks|].
  split; [|split; reflexivity].
  intros s d r Ht Hr Hne.
  rewrite (handleData_complete _ _ Ht), Hr. cbn [truthy_text].
  apply String.eqb_neq in Hne. rewrite Hne. cbn [negb].
  unfold onComplete, closeEventSource. rewrite Hr.
  destruct s; cbn. now split.
Qed.

Lemma report_chunks_append_then_complete_replaces_witness :
  let s := process startedJob [chunkMsg "Hello "] in
  currentReport (handleData s (chunkMsg "world")) = "Hello world" /\
  currentReport (handleData (handleData s (chunkMsg "world"))
                   (completeMsg (Some "FINAL"))) = "FINAL".
Proof.
  split.
  - apply (proj1 report_chunks_append_then_complete_replaces
             (process startedJob [chunkMsg "Hello "]) (chunkMsg "world") "world");
      reflexivity.
  - apply (proj1 (proj2 (proj2 report_chunks_append_then_complete_replaces)));
      [reflexivity|reflexivity|discriminate].
Defined.

(** ** Reset *)


(** The release of a previous stream is the submit handler's: it closes the
    handle and clears the ref. *)
Lemma clearExistingConnection_releases (s : State) :
  eventSourceRef (clearExistingConnection s) = None.
Proof.
  unfold clearExistingConnection, clearExistingConnectionIn, closeEventSource.
  destruct s as [? ? ? ? ? [es|] ? ? ? ? ? ? ? ? ? ? ?]; reflexivity.
Qed.

(** Whatever was handled while the reset was pending, its callback leaves
    the progress state cleared and does not touch the connection
    handle. *)
Lemma resetCallback_clears_progress_state (s : State) (ds : list Data.t) :
  let pending := process (resetResearch s) ds in
  let s' := fire ResetState pending in
  queries s' = [] /\
  streamingQueries s' = ∅ /\
  enrichmentCounts s' = None /\
  briefingStatus s' = noBriefings /\
  (briefingStatus s' !! "company" = Some false /\
   briefingStatus s' !! "industry" = Some false /\
   briefingStatus s' !! "financial" = Some false /\
   briefingStatus s' !! "news" = Some false) /\
  output s' = None /\
  currentReport s' = "" /\
  currentPhase s' = None /\
  eventSourceRef (resetResearch s) = eventSourceRef s /\
  eventSourceRef s' = eventSourceRef pending.
Proof.
  cbv zeta. generalize (process (resetResearch s) ds). intros pending.
  destruct pending, s; cbn. repeat split; reflexivity.
Qed.

(** ** Enrichment counters *)

Lemma num_or0_default (v : option Z) : num_or0 v = default 0 v.
Proof.
  destruct v as [z|]; cbn; [|reflexivity].
  destruct (Z.eqb_spec z 0); congruence.
Qed.

Lemma truthy_text_nonempty (c : string) : c <> "" -> truthy_text (Some c) = true.
Proof. intros H. cbn. apply String.eqb_neq in H. now rewrite H. Qed.

Lemma enrichmentCounts_onCuration (d : Data.t) (s : State) (c : string) :
  Data.category d = Some c -> c <> "" ->
  enrichmentCounts (onCuration d s) =
  Some (<[c := {| total := default 0 (Data.total d); enriched := 0 |}]>
          (default ∅ (enrichmentCounts s))).
Proof.
  intros Hc Hne. unfold onCuration.
  rewrite Hc, (truthy_text_nonempty _ Hne), num_or0_default.
  now destruct s.
Qed.

Lemma enrichmentCounts_onEnrichment (d : Data.t) (s : State) (c : string) (e : Z) :
  Data.category d = Some c -> c <> "" -> Data.enriched d = Some e ->
  enrichmentCounts (onEnrichment d s) = enrichCounts d e (enrichmentCounts s).
Proof.
  intros Hc Hne He. unfold onEnrichment.
  rewrite He, Hc, (truthy_text_nonempty _ Hne).
  now destruct s.
Qed.

(** C5.  A curation message carrying a category sets that category's
    counter to the message's total (0 when it has none) with enriched 0,
    whatever counter the category had; the other categories keep theirs. *)
Theorem curation_resets_counter (s : State) (d : Data.t) (c : string) :
  type_is d "curation" = true ->
  Data.category d = Some c -> c <> "" ->
  counterOf c (handleData s d) =
    Some {| total := default 0 (Data.total d); enriched := 0 |} /\
  (forall c', c' <> c -> counterOf c' (handleData s d) = counterOf c' s).
Proof.
  intros Ht Hc Hne.
  rewrite (handleData_curation _ _ Ht). unfold counterOf.
  rewrite (enrichmentCounts_onCuration _ _ _ Hc Hne). split.
  - apply lookup_insert_eq.
  - intros c' Hc'. rewrite lookup_insert_ne by congruence.
    destruct (enrichmentCounts s); [reflexivity|apply lookup_empty].
Qed.

(** The example of the claim: a counter at total 5, enriched 3, then a
    curation with total 7. *)
Lemma curation_resets_counter_witness :
  let s := process startedJob [curationMsg "news" 5; enrichmentMsg "news" 3] in
  counterOf "news" s = Some {| total := 5; enriched := 3 |} /\
  counterOf "news" (handleData s (curationMsg "news" 7)) =
    Some {| total := 7; enriched := 0 |}.
Proof.
  split; [reflexivity|].
  apply (curation_resets_counter
           (process startedJob [curationMsg "news" 5; enrichmentMsg "news" 3])
           (curationMsg "news" 7) "news");
    [reflexivity|reflexivity|discriminate].
Defined.

(** C4, as stated, fails.  Once a curation has created the mapping, an
    enrichment message for a category without an entry creates one. *)
Lemma enrichment_creates_missing_entry :
  let s := process startedJob [curationMsg "company" 5] in
  let s' := handleData s (enrichmentMsg "news" 4) in
  counterOf "news" s = None /\
  counterOf "news" s' = Some {| total := 0; enriched := 4 |} /\
  enrichmentCounts s' <> enrichmentCounts s.
Proof.
  cbv zeta. split; [reflexivity|]. split; [reflexivity|].
  intros H. apply (f_equal (fun o => o ≫= (.!! "news"))) in H.
  vm_compute in H. discriminate.
Qed.

(** C4, amended.  An enrichment message carrying a category and an enriched
    count leaves the counters undefined while no curation has created the
    mapping; when the mapping exists without an entry for the category, the
    message creates the entry, with the message's total (0 when it has
    none) and the reported count. *)
Theorem enrichment_without_entry (s : State) (d : Data.t) (c : string) (e : Z) :
  type_is d "enrichment" = true ->
  Data.category d = Some c -> c <> "" -> Data.enriched d = Some e ->
  (enrichmentCounts s = None -> enrichmentCounts (handleData s d) = None) /\
  (forall m, enrichmentCounts s = Some m -> m !! c = None ->
     enrichmentCounts (handleData s d) =
       Some (<[c := {| total := default 0 (Data.total d); enriched := e |}]> m)).
Proof.
  intros Ht Hc Hne He.
  rewrite (handleData_enrichment _ _ Ht),
          (enrichmentCounts_onEnrichment _ _ _ _ Hc Hne He).
  split.
  - now intros ->.
  - intros m -> Hm. unfold enrichCounts. rewrite Hc. cbn [str_of_text].
    rewrite Hm. cbn [fmap option_fmap option_map num_or truthy_num].
    now rewrite num_or0_default.
Qed.

Lemma enrichment_without_entry_witness :
  enrichmentCounts (handleData startedJob (enrichmentMsg "news" 4)) = None /\
  enrichmentCounts
    (handleData (process startedJob [curationMsg "company" 5])
       (enrichmentMsg "news" 4)) =
    Some (<["news" := {| total := 0; enriched := 4 |}]>
            (<["company" := {| total := 5; enriched := 0 |}]> ∅)).
Proof.
  split.
  - apply (enrichment_without_entry startedJob (enrichmentMsg "news" 4) "news" 4);
      [reflexivity|reflexivity|discriminate|reflexivity|reflexivity].
  - apply (enrichment_without_entry
             (process startedJob [curationMsg "company" 5])
             (enrichmentMsg "news" 4) "news" 4);
      [reflexivity|reflexivity|discriminate|reflexivity|reflexivity|reflexivity].
Defined.

(** C7, as stated, fails.  The enriched value is overwritten with the
    reported count, so a lower report lowers it. *)
Lemma enrichment_can_lower_count :
  let s := process startedJob [curationMsg "news" 5; enrichmentMsg "news" 3] in
  let s' := handleData s (enrichmentMsg "news" 1) in
  enriched <$> counterOf "news" s = Some 3 /\
  enriched <$> counterOf "news" s' = Some 1 /\
  ~ (3 <= 1).
Proof. cbv zeta. split; [reflexivity|]. split; [reflexivity|lia]. Qed.

(** C7, amended.  An enrichment message applied to a state that has a
    counter for its category sets the category's enriched value to the
    count it reports (the total is kept when non-zero); the value after the
    update is at least the value before exactly when the reported count
    is. *)
Theorem enrichment_sets_reported_count
    (s : State) (d : Data.t) (c : string) (e : Z) (old : Counter) :
  type_is d "enrichment" = true ->
  Data.category d = Some c -> c <> "" -> Data.enriched d = Some e ->
  counterOf c s = Some old ->
  exists new,
    counterOf c (handleData s d) = Some new /\
    enriched new = e /\
    total new = (if Z.eqb (total old) 0 then default 0 (Data.total d)
                 else total old) /\
    (enriched old <= enriched new <-> enriched old <= e).
Proof.
  intros Ht Hc Hne He Hold.
  rewrite (handleData_enrichment _ _ Ht). unfold counterOf in *.
  rewrite (enrichmentCounts_onEnrichment _ _ _ _ Hc Hne He).
  destruct (enrichmentCounts s) as [m|]; [|discriminate].
  unfold enrichCounts. rewrite Hc. cbn [str_of_text]. rewrite Hold.
  eexists. split; [apply lookup_insert_eq|]. cbn.
  split; [reflexivity|]. split; [|reflexivity].
  unfold num_or. cbn.
  destruct (Z.eqb_spec (total old) 0) as [E|E]; cbn.
  - apply num_or0_default.
  - apply Z.eqb_neq in E. now rewrite E.
Qed.

Lemma enrichment_sets_reported_count_witness :
  exists new,
    counterOf "news"
      (handleData
         (process startedJob [curationMsg "news" 5; enrichmentMsg "news" 3])
         (enrichmentMsg "news" 4)) = Some new /\
    enriched new = 4 /\
    total new = 5 /\
    (3 <= enriched new <-> 3 <= 4).
Proof.
  apply (enrichment_sets_reported_count
           (process startedJob [curationMsg "news" 5; enrichmentMsg "news" 3])
           (enrichmentMsg "news" 4) "news" 4 {| total := 5; enriched := 3 |});
    [reflexivity|reflexivity|discriminate|reflexivity|reflexivity].
Defined.

(** ** Briefing completion and the collapse timer *)

Lemma onBriefingComplete_effect (d : Data.t) (s : State) (c : string) :
  Data.category d = Some c -> c <> "" ->
  briefingStatus (onBriefingComplete d s) = <[c := true]> (briefingStatus s) /\
  timeouts (onBriefingComplete d s) =
    (timeouts s ++
     if allBriefingsComplete (<[c := true]> (briefingStatus s))
     then [CollapseBriefing] else [])%list.
Proof.
  intros Hc Hne. unfold onBriefingComplete.
  rewrite Hc, (truthy_text_nonempty _ Hne). cbn [str_of_text].
  destruct s; cbn.
  destruct (allBriefingsComplete _); cbn; [now split|].
  split; [reflexivity|now rewrite app_nil_r].
Qed.

Lemma collapseBriefingCount_app (s s' : State) (ts : list Timer) :
  timeouts s' = (timeouts s ++ ts)%list ->
  collapseBriefingCount s' =
  (collapseBriefingCount s + length (List.filter isCollapseBriefing ts))%nat.
Proof.
  intros H. unfold collapseBriefingCount.
  now rewrite H, List.filter_app, length_app.
Qed.

(** C8, as stated, fails.  With all four categories complete and one
    collapse requested, a repeated briefing_complete requests another. *)
Lemma repeated_briefing_complete_schedules_again :
  let s := process startedJob
             (map briefingCompleteMsg ["company"; "industry"; "financial"; "news"]) in
  let s' := handleData s (briefingCompleteMsg "news") in
  briefingStatus s !! "news" = Some true /\
  collapseBriefingCount s = 1%nat /\
  collapseBriefingCount s' = 2%nat /\
  collapseBriefingCount s' <> collapseBriefingCount s.
Proof. vm_compute. repeat split. discriminate. Qed.

(** C8, amended.  Every briefing_complete message carrying a category marks
    it true and requests the collapse-briefings action when, with that
    mark, all briefing flags are true, and requests nothing otherwise.  So
    the action is requested when the last category completes, and again
    by each later briefing_complete for a category that is already true. *)
Theorem collapse_requested_whenever_all_complete
    (s : State) (d : Data.t) (c : string) :
  type_is d "briefing_complete" = true ->
  Data.category d = Some c -> c <> "" ->
  briefingStatus (handleData s d) = <[c := true]> (briefingStatus s) /\
  timeouts (handleData s d) =
    (timeouts s ++
     if allBriefingsComplete (<[c := true]> (briefingStatus s))
     then [CollapseBriefing] else [])%list /\
  (allBriefingsComplete (briefingStatus s) = true ->
   briefingStatus s !! c = Some true ->
   collapseBriefingCount (handleData s d) = S (collapseBriefingCount s)).
Proof.
  intros Ht Hc Hne. rewrite (handleData_briefing_complete _ _ Ht).
  destruct (onBriefingComplete_effect d s c Hc Hne) as [Hb Hto].
  split; [exact Hb|]. split; [exact Hto|].
  intros Hall Htrue.
  rewrite (collapseBriefingCount_app _ _ _ Hto).
  rewrite (insert_id _ _ _ Htrue), Hall. cbn. lia.
Qed.

Lemma collapse_requested_whenever_all_complete_witness :
  let s := process startedJob
             (map briefingCompleteMsg ["company"; "industry"; "financial"; "news"]) in
  collapseBriefingCount (handleData s (briefingCompleteMsg "news")) =
  S (collapseBriefingCount s).
Proof.
  apply (collapse_requested_whenever_all_complete
           (process startedJob
              (map briefingCompleteMsg ["company"; "industry"; "financial"; "news"]))
           (briefingCompleteMsg "news") "news");
    [reflexivity|reflexivity|discriminate|reflexivity|reflexivity].
Defined.

(** ** Streaming and finalized queries *)

Lemma sameIdentity_finalizedOf (d : Data.t) : sameIdentity d (finalizedOf d) = true.
Proof. unfold sameIdentity. cbn. now rewrite !bool_decide_eq_true_2. Qed.

Lemma onQueryGenerated_effect (d : Data.t) (s : State) :
  streamingQueries (onQueryGenerated d s) = delete (queryKey d) (streamingQueries s) /\
  queries (onQueryGenerated d s) = (queries s ++ [finalizedOf d])%list.
Proof. unfold onQueryGenerated. now destruct s. Qed.

Lemma onQueryGenerating_effect (d : Data.t) (s : State) :
  streamingQueries (onQueryGenerating d s) =
    <[queryKey d := {| sq_text := Data.query d;
                       sq_number := Data.query_number d;
                       sq_category := Data.category d;
                       sq_isComplete := false |}]> (streamingQueries s) /\
  queries (onQueryGenerating d s) = queries s.
Proof. unfold onQueryGenerating. now destruct s. Qed.

Lemma finalizedCount_generated (d : Data.t) (s : State) :
  finalizedCount d (onQueryGenerated d s) = S (finalizedCount d s).
Proof.
  unfold finalizedCount.
  rewrite (proj2 (onQueryGenerated_effect d s)), List.filter_app, length_app.
  cbn [List.filter]. rewrite sameIdentity_finalizedOf. cbn. lia.
Qed.

(** C2, as stated, fails.  A query_generating message that arrives after
    the query_generated of the same identity puts the identity back into
    the streaming map while it stays finalized; a repeated query_generated
    finalizes it a second time. *)
Lemma identity_in_both_after_late_generating :
  let g := queryMsg "query_generating" "acme rev" "news" 1 in
  let d := queryMsg "query_generated" "acme revenue" "news" 1 in
  let s := process startedJob [d; g] in
  is_Some (streamingQueries s !! queryKey d) /\
  finalizedCount d s = 1%nat /\
  finalizedCount d (process startedJob [g; d; d]) = 2%nat.
Proof.
  cbv zeta. split; [|split; reflexivity].
  eexists. vm_compute. reflexivity.
Qed.

(** C2, amended.  Processing query_generated for an identity removes its
    key from the streaming map and appends exactly one record for it to the
    finalized sequence.  From a state in which the identity is not yet
    finalized, a query_generating puts it in the streaming map only, and
    the query_generated of that identity then leaves it exactly once in the
    finalized sequence and absent from the streaming map. *)
Theorem query_generated_moves_identity :
  (forall s d,
      type_is d "query_generated" = true ->
      streamingQueries (handleData s d) !! queryKey d = None /\
      streamingQueries (handleData s d) = delete (queryKey d) (streamingQueries s) /\
      queries (handleData s d) = (queries s ++ [finalizedOf d])%list /\
      finalizedCount d (handleData s d) = S (finalizedCount d s)) /\
  (forall s g d,
      type_is g "query_generating" = true ->
      type_is d "query_generated" = true ->
      Data.category g = Data.category d ->
      Data.query_number g = Data.query_number d ->
      finalizedCount d s = 0%nat ->
      (is_Some (streamingQueries (handleData s g) !! queryKey d) /\
       finalizedCount d (handleData s g) = 0%nat) /\
      finalizedCount d (process s [g; d]) = 1%nat /\
      streamingQueries (process s [g; d]) !! queryKey d = None).
Proof.
  assert (Hone : forall s d,
      type_is d "query_generated" = true ->
      streamingQueries (handleData s d) !! queryKey d = None /\
      streamingQueries (handleData s d) = delete (queryKey d) (streamingQueries s) /\
      queries (handleData s d) = (queries s ++ [finalizedOf d])%list /\
      finalizedCount d (handleData s d) = S (finalizedCount d s)).
  { intros s d Ht. rewrite (handleData_query_generated _ _ Ht).
    destruct (onQueryGenerated_effect d s) as [Hs Hq].
    rewrite Hs, Hq. split; [apply lookup_delete_eq|].
    split; [reflexivity|]. split; [reflexivity|].
    apply finalizedCount_generated. }
  split; [exact Hone|].
  intros s g d Hg Hd Hcat Hnum Hzero. cbn [process fold_left].
  destruct (Hone (handleData s g) d Hd) as (Hgone & _ & _ & Hcount).
  assert (Hkey : queryKey g = queryKey d)
    by (unfold queryKey; now rewrite Hcat, Hnum).
  assert (Hstill : finalizedCount d (handleData s g) = 0%nat).
  { rewrite (handleData_query_generating _ _ Hg).
    unfold finalizedCount in *.
    now rewrite (proj2 (onQueryGenerating_effect g s)). }
  split; [split; [|exact Hstill]|split; [|exact Hgone]].
  - rewrite (handleData_query_generating _ _ Hg),
            (proj1 (onQueryGenerating_effect g s)), Hkey, lookup_insert_eq.
    eauto.
  - now rewrite Hcount, Hstill.
Qed.

Lemma query_generated_moves_identity_witness :
  let g := queryMsg "query_generating" "acme rev" "news" 1 in
  let d := queryMsg "query_generated" "acme revenue" "news" 1 in
  (is_Some (streamingQueries (handleData startedJob g) !! queryKey d) /\
   finalizedCount d (handleData startedJob g) = 0%nat) /\
  finalizedCount d (process startedJob [g; d]) = 1%nat /\
  streamingQueries (process startedJob [g; d]) !! queryKey d = None.
Proof.
  apply (proj2 query_generated_moves_identity); reflexivity.
Defined.

(** ** One message, by cases *)

(** Whatever holds of the state each branch returns holds of the state after
    the message.  The last case is a message that runs no branch. *)
Lemma handleData_elim (P : State -> Prop) (s : State) (d : Data.t) :
  (Data.type d = Some "progress" -> P (onProgress d s)) ->
  (Data.type d = Some "query_generating" -> P (onQueryGenerating d s)) ->
  (Data.type d = Some "query_generated" -> P (onQueryGenerated d s)) ->
  (Data.type d = Some "research_init" -> P (onResearchInit d s)) ->
  (Data.type d = Some "crawl_start" -> P (onCrawlStart d s)) ->
  (Data.type d = Some "curation" -> P (onCuration d s)) ->
  (Data.type d = Some "enrichment" -> P (onEnrichment d s)) ->
  (Data.type d = Some "briefing_start" -> P (onBriefingStart d s)) ->
  (Data.type d = Some "briefing_complete" -> P (onBriefingComplete d s)) ->
  (Data.type d = Some "report_compilation" -> P (onReportCompilation d s)) ->
  (Data.type d = Some "report_chunk" -> truthy_text (Data.chunk d) = true ->
   P (onReportChunk d s)) ->
  (Data.type d = Some "complete" -> truthy_text (Data.report d) = true ->
   P (onComplete d s)) ->
  (Data.type d = Some "error" -> P (onErrorEvent d s)) ->
  ((forall k, In k ["progress"; "query_generating"; "query_generated";
                    "research_init"; "crawl_start"; "curation"; "enrichment";
                    "briefing_start"; "briefing_complete";
                    "report_compilation"; "error"] -> type_is d k = false) ->
   (type_is d "report_chunk" = true -> truthy_text (Data.chunk d) = false) ->
   (type_is d "complete" = true -> truthy_text (Data.report d) = false) ->
   P s) ->
  P (handleData s d).
Proof.
  intros Hprog Hqing Hqed Hinit Hcrawl Hcur Henr Hbs Hbc Hrc Hchunk Hcomp Herr Hnone.
  unfold handleData.
  destruct (Data.type d) as [k|] eqn:Hk.
  2:{ unfold onProgress, onEvent, type_is in *. rewrite Hk in *. cbn [andb].
      apply Hnone; intros; reflexivity || discriminate. }
  destruct (String.eqb_spec k "progress") as [->|Hnp].
  { assert (Ht : type_is d "progress" = true) by (unfold type_is; now rewrite Hk).
    fold (handleData s d). rewrite (handleData_progress _ _ Ht). now apply Hprog. }
  rewrite onProgress_other
    by (unfold type_is; rewrite Hk; now apply String.eqb_neq).
  unfold onEvent, type_is in *. rewrite Hk in *.
  destruct (String.eqb_spec k "query_generating") as [->|?]; [auto|].
  destruct (String.eqb_spec k "query_generated") as [->|?]; [auto|].
  destruct (String.eqb_spec k "research_init") as [->|?]; [auto|].
  destruct (String.eqb_spec k "crawl_start") as [->|?]; [auto|].
  destruct (String.eqb_spec k "curation") as [->|?]; [auto|].
  destruct (String.eqb_spec k "enrichment") as [->|?]; [auto|].
  destruct (String.eqb_spec k "briefing_start") as [->|?]; [auto|].
  destruct (String.eqb_spec k "briefing_complete") as [->|?]; [auto|].
  destruct (String.eqb_spec k "report_compilation") as [->|?]; [auto|].
  destruct (String.eqb_spec k "report_chunk") as [->|?]; cbn [andb].
  { destruct (truthy_text (Data.chunk d)) eqn:E; [auto|].
    cbn. apply Hnone; [|auto|discriminate].
    intros k' Hin. cbn in Hin.
    repeat (destruct Hin as [<-|Hin]; [reflexivity|]). contradiction. }
  destruct (String.eqb_spec k "complete") as [->|?]; cbn [andb].
  { destruct (truthy_text (Data.report d)) eqn:E; [auto|].
    cbn. apply Hnone; [|discriminate|auto].
    intros k' Hin. cbn in Hin.
    repeat (destruct Hin as [<-|Hin]; [reflexivity|]). contradiction. }
  destruct (String.eqb_spec k "error") as [->|?]; [auto|].
  apply Hnone; [|discriminate|discriminate].
  intros k' Hin. apply String.eqb_neq. cbn in Hin.
  repeat (destruct Hin as [<-|Hin]; [assumption|]). contradiction.
Qed.

Ltac open_handlers :=
  unfold onProgress, onQueryGenerating, onQueryGenerated, onResearchInit,
    onCrawlStart, onCuration, onEnrichment, onBriefingStart,
    onBriefingComplete, onReportCompilation, onReportChunk, onComplete,
    onErrorEvent, closeEventSource.

(** Splits on the branch a message runs; in each case the kind is known. *)
Ltac by_branch :=
  apply handleData_elim;
  [ intros Hk | intros Hk | intros Hk | intros Hk | intros Hk | intros Hk
  | intros Hk | intros Hk | intros Hk | intros Hk | intros Hk Htruthy
  | intros Hk Htruthy | intros Hk | intros Hnot Hchunk Hreport ];
  unfold type_is in *;
  try match goal with
      | H : Data.type _ = Some _ |- _ => rewrite ?H in *
      end;
  open_handlers.

(** Closes the cases of branches that leave the field at hand alone. *)
Ltac untouched s :=
  solve [ destruct s; cbn in *; repeat (case_match; cbn in *; simplify_eq);
          first [assumption | reflexivity | eauto] ].

Lemma process_cons (s : State) (d : Data.t) (ds : list Data.t) :
  process s (d :: ds) = process (handleData s d) ds.
Proof. reflexivity. Qed.

Lemma process_app (s : State) (ds ds' : list Data.t) :
  process s (ds ++ ds') = process (process s ds) ds'.
Proof. unfold process. apply fold_left_app. Qed.

(** ** Finalized queries over a run *)

Lemma queries_handleData (s : State) (d : Data.t) :
  queries (handleData s d) =
  (queries s ++ if type_is d "query_generated" then [finalizedOf d] else [])%list.
Proof.
  by_branch; try (rewrite (Hnot "query_generated") by (cbn; tauto));
    destruct s; cbn; repeat case_match; cbn; rewrite ?app_nil_r; reflexivity.
Qed.

(** X1.  The finalized query sequence after a run of messages is the
    sequence before it followed by one record per query_generated message,
    in arrival order; no other message adds, removes or reorders a
    record. *)
Theorem queries_are_generated_messages_in_order (s : State) (ds : list Data.t) :
  queries (process s ds) =
  (queries s ++
   map finalizedOf (List.filter (fun d => type_is d "query_generated") ds))%list.
Proof.
  revert s. induction ds as [|d ds IH]; intros s.
  - cbn. now rewrite app_nil_r.
  - rewrite process_cons, IH, queries_handleData. cbn [List.filter].
    destruct (type_is d "query_generated"); cbn [map];
      now rewrite <- app_assoc.
Qed.

(** ** Streaming queries over a run *)

Lemma wellKeyed_handleData (s : State) (d : Data.t) :
  wellKeyed (streamingQueries s) -> wellKeyed (streamingQueries (handleData s d)).
Proof.
  intros Hs. by_branch;
    try untouched s.
  - destruct s; cbn in *. intros k e.
    rewrite lookup_insert. case_decide as Hkey.
    + intros [= <-]. cbn. split; [reflexivity|]. now rewrite <- Hkey.
    + apply Hs.
  - destruct s; cbn in *. intros k e Hl.
    apply lookup_delete_Some in Hl as [_ Hl]. now apply Hs.
Qed.

(** X2.  Along any run of messages every entry of the streaming-query map
    is unfinished ([isComplete] false) and stored under the key built from
    its own category and number. *)
Theorem streaming_entries_stay_well_keyed (s : State) (ds : list Data.t) :
  wellKeyed (streamingQueries s) ->
  wellKeyed (streamingQueries (process s ds)).
Proof.
  revert s. induction ds as [|d ds IH]; intros s Hs; [exact Hs|].
  rewrite process_cons. apply IH. now apply wellKeyed_handleData.
Qed.

Lemma streaming_entries_stay_well_keyed_witness :
  wellKeyed (streamingQueries
               (process startedJob
                  [queryMsg "query_generating" "acme rev" "news" 1;
                   queryMsg "query_generating" "acme revenue 2024" "news" 1;
                   queryMsg "query_generating" "acme ceo" "company" 2;
                   queryMsg "query_generated" "acme ceo" "company" 2])).
Proof.
  apply streaming_entries_stay_well_keyed.
  intros k e H. cbn in H. rewrite lookup_empty in H. discriminate.
Defined.

(** ** Briefing flags and counters over a run *)

Lemma briefing_true_handleData (s : State) (d : Data.t) (c : string) :
  briefingStatus s !! c = Some true ->
  briefingStatus (handleData s d) !! c = Some true.
Proof.
  intros Hs. by_branch;
    try untouched s.
  destruct s; cbn in *. repeat case_match; cbn; try assumption;
    (rewrite lookup_insert; case_decide; [reflexivity|assumption]).
Qed.

(** X3.  No message clears a briefing flag: a category that is marked
    complete stays marked complete along any run of messages. *)
Theorem briefing_flags_never_cleared (s : State) (ds : list Data.t) (c : string) :
  briefingStatus s !! c = Some true ->
  briefingStatus (process s ds) !! c = Some true.
Proof.
  revert s. induction ds as [|d ds IH]; intros s Hs; [exact Hs|].
  rewrite process_cons. apply IH. now apply briefing_true_handleData.
Qed.

Lemma briefing_flags_never_cleared_witness :
  briefingStatus
    (process (handleData startedJob (briefingCompleteMsg "news"))
       [curationMsg "news" 3; Data.of_type "briefing_start";
        briefingCompleteMsg "company"; completeMsg (Some "done")])
    !! "news" = Some true.
Proof.
  apply briefing_flags_never_cleared. reflexivity.
Defined.

Lemma counter_kept_handleData (s : State) (d : Data.t) (c : string) :
  is_Some (counterOf c s) -> is_Some (counterOf c (handleData s d)).
Proof.
  unfold counterOf. intros Hs. by_branch;
    try untouched s.
  - destruct s; cbn in *. repeat (case_match; cbn in *; simplify_eq);
      try assumption;
      (rewrite lookup_insert; case_decide; [eauto|assumption]).
  - unfold enrichCounts. destruct s; cbn in *.
    repeat (case_match; cbn in *; simplify_eq); try assumption;
      (rewrite lookup_insert; case_decide; [eauto|assumption]).
Qed.

(** X4.  No message removes an enrichment counter: once a category has a
    counter it has one after any run of messages (curation and enrichment
    overwrite its values, nothing deletes it or the mapping). *)
Theorem counters_never_removed (s : State) (ds : list Data.t) (c : string) :
  is_Some (counterOf c s) -> is_Some (counterOf c (process s ds)).
Proof.
  revert s. induction ds as [|d ds IH]; intros s Hs; [exact Hs|].
  rewrite process_cons. apply IH. now apply counter_kept_handleData.
Qed.

Lemma counters_never_removed_witness :
  is_Some (counterOf "news"
             (process (handleData startedJob (curationMsg "news" 5))
                [curationMsg "company" 2; enrichmentMsg "company" 1;
                 Data.of_type "briefing_start"; completeMsg (Some "done")])).
Proof.
  apply counters_never_removed. eexists. reflexivity.
Defined.

(** ** Phase over a run *)

(** X5.  No run of messages brings the phase to complete (no branch writes
    that value, the complete branch included), and none brings a started
    phase back to null. *)
Theorem phase_never_complete_never_back_to_null (s : State) (ds : list Data.t) :
  (currentPhase s <> Some complete ->
   currentPhase (process s ds) <> Some complete) /\
  (currentPhase s <> None -> currentPhase (process s ds) <> None).
Proof.
  revert s. induction ds as [|d ds IH]; intros s; [tauto|].
  rewrite process_cons. destruct (IH (handleData s d)) as [IH1 IH2].
  rewrite currentPhase_handleData in IH1, IH2.
  pose proof (eventPhase_never_complete d) as Hd.
  destruct (eventPhase d) as [p|]; split; intros H;
    (apply IH1 || apply IH2); congruence.
Qed.

Lemma phase_never_complete_never_back_to_null_witness :
  currentPhase (process startedJob
                  [curationMsg "news" 2; chunkMsg "text";
                   completeMsg (Some "final report")]) <> Some complete /\
  currentPhase (process (handleData startedJob (curationMsg "news" 2))
                  [Data.of_type "heartbeat"; completeMsg None]) <> None.
Proof.
  split.
  - apply (proj1 (phase_never_complete_never_back_to_null startedJob _)).
    discriminate.
  - apply (proj2 (phase_never_complete_never_back_to_null
                    (handleData startedJob (curationMsg "news" 2)) _)).
    discriminate.
Defined.

(** ** The report buffer over a run *)

Lemma text_or_truthy (v : option string) :
  truthy_text v = true -> text_or v "" = str_of_text v.
Proof.
  destruct v as [c|]; [|discriminate]. cbn.
  now destruct (String.eqb c "").
Qed.

Lemma text_or_not_truthy (v : option string) :
  truthy_text v = false -> text_or v "" = "".
Proof.
  destruct v as [c|]; [|reflexivity]. cbn.
  now destruct (String.eqb c "").
Qed.

Lemma currentReport_handleData (s : State) (d : Data.t) :
  currentReport (handleData s d) = reportStep (currentReport s) d.
Proof.
  unfold reportStep, chunkText. by_branch.
  14:{ destruct (Data.type d) as [k|]; cbn [andb].
       - destruct (String.eqb k "complete");
           [rewrite Hreport by reflexivity|]; cbn [andb];
           (destruct (String.eqb k "report_chunk");
            [rewrite text_or_not_truthy by auto|]);
           now rewrite append_empty_r.
       - now rewrite append_empty_r. }
  11:{ rewrite (text_or_truthy _ Htruthy). cbn. now destruct s. }
  11:{ rewrite Htruthy. cbn. now destruct s. }
  all: cbn [String.eqb Ascii.eqb Bool.eqb andb]; rewrite append_empty_r;
    untouched s.
Qed.

(** X6.  The report buffer after a run of messages depends only on the
    buffer before it and on the run's report_chunk and complete messages:
    each chunk is appended, each complete with a report replaces the
    buffer, and every other message (a complete without a report
    included) leaves it as it is. *)
Theorem report_follows_chunks_and_completes (s : State) (ds : list Data.t) :
  currentReport (process s ds) = fold_left reportStep ds (currentReport s).
Proof.
  revert s. induction ds as [|d ds IH]; intros s; [reflexivity|].
  rewrite process_cons, IH, currentReport_handleData. reflexivity.
Qed.

(** ** The connection over a run *)

Lemma eventSourceRef_handleData (s : State) (d : Data.t) :
  eventSourceRef (handleData s d) =
  if isTerminal d then closed <$> eventSourceRef s else eventSourceRef s.
Proof.
  unfold isTerminal. by_branch.
  14:{ destruct (Data.type d) as [k|]; [|reflexivity].
       rewrite (Hnot "error") by (cbn; tauto). cbn [orb].
       destruct (String.eqb k "complete"); [|reflexivity].
       now rewrite Hreport. }
  12:{ rewrite Htruthy. cbn. destruct s as [? ? ? ? ? [es|]]; reflexivity. }
  12:{ cbn. destruct s as [? ? ? ? ? [es|]]; reflexivity. }
  all: cbn [String.eqb Ascii.eqb Bool.eqb andb orb]; untouched s.
Qed.

Lemma closed_twice (o : option EventSource) : closed <$> (closed <$> o) = closed <$> o.
Proof. now destruct o. Qed.

(** X7.  Messages never open or swap the connection handle, and only a
    terminal message (an error, or a complete with a report) closes it:
    after a run the handle is the one from before the run, closed when the
    run holds a terminal message and untouched otherwise. *)
Theorem handle_closed_by_terminal_messages_only (s : State) (ds : list Data.t) :
  eventSourceRef (process s ds) =
  if existsb isTerminal ds then closed <$> eventSourceRef s
  else eventSourceRef s.
Proof.
  revert s. induction ds as [|d ds IH]; intros s; [reflexivity|].
  rewrite process_cons, IH, eventSourceRef_handleData. cbn [existsb].
  destruct (isTerminal d); cbn [orb]; [|reflexivity].
  destruct (existsb isTerminal ds); [apply closed_twice|reflexivity].
Qed.

(** ** Timers over a run *)

Lemma timeouts_handleData (s : State) (d : Data.t) :
  timeouts (handleData s d) = (timeouts s ++ timersOf s d)%list.
Proof.
  unfold timersOf. by_branch.
  14:{ rewrite (Hnot "curation"), (Hnot "briefing_start"),
         (Hnot "briefing_complete") by (cbn; tauto).
       cbn. now rewrite app_nil_r. }
  all: cbn [String.eqb Ascii.eqb Bool.eqb andb orb].
  9:{ destruct s; cbn. destruct (truthy_text (Data.category d)); cbn;
        [|now rewrite app_nil_r].
      destruct (allBriefingsComplete _); cbn; now rewrite ?app_nil_r. }
  all: destruct s; cbn; repeat case_match; cbn; rewrite ?app_nil_r; reflexivity.
Qed.

Lemma timerCount_handleData (t : Timer) (s : State) (d : Data.t) :
  timerCount t (handleData s d) =
  (timerCount t s + length (List.filter (isTimer t) (timersOf s d)))%nat.
Proof.
  unfold timerCount. now rewrite timeouts_handleData, List.filter_app, length_app.
Qed.

(** X8.  Over a run of messages, every curation message requests one
    collapse of the queries section and every briefing_start message one
    collapse of the enrichment section (each message, not only the first
    of its kind), and no message requests a reset. *)
Theorem collapse_timers_count_messages (s : State) (ds : list Data.t) :
  timerCount CollapseQueries (process s ds) =
    (timerCount CollapseQueries s + kindCount "curation" ds)%nat /\
  timerCount CollapseEnrichment (process s ds) =
    (timerCount CollapseEnrichment s + kindCount "briefing_start" ds)%nat /\
  timerCount ResetState (process s ds) = timerCount ResetState s.
Proof.
  revert s. induction ds as [|d ds IH]; intros s.
  - cbn. repeat split; lia.
  - rewrite process_cons. destruct (IH (handleData s d)) as (H1 & H2 & H3).
    rewrite H1, H2, H3, !timerCount_handleData. unfold kindCount, timersOf.
    cbn [List.filter].
    destruct (type_is d "curation") eqn:Ec.
    { rewrite (type_is_kind _ _ Ec "briefing_start"). cbn. repeat split; lia. }
    destruct (type_is d "briefing_start") eqn:Eb; [cbn; repeat split; lia|].
    destruct (_ && _); cbn; repeat split; lia.
Qed.

(** ** Failures *)

Lemma onErrorEvent_effect (s : State) (d : Data.t) :
  gathered (onErrorEvent d s) = gathered s /\
  error (onErrorEvent d s) = Data.error d /\
  isResearching (onErrorEvent d s) = false /\
  eventSourceRef (onErrorEvent d s) = closed <$> eventSourceRef s.
Proof.
  unfold onErrorEvent, closeEventSource, gathered.
  destruct s as [? ? ? ? ? [es|]]; cbn; repeat split; reflexivity.
Qed.

Lemma handleData_error d s :
  type_is d "error" = true -> handleData s d = onErrorEvent d s.
Proof. intros H. dispatch H. Qed.

(** X9.  An error message and a transport error end the job the same way:
    the handle is closed, [isResearching] is lowered and the error text is
    recorded (the message's own, or the fixed connection-lost text), while
    everything the job has gathered (status, report, phase, queries,
    counters, briefing flags, completion flag, timers) is left as it
    was. *)
Theorem failures_keep_what_was_gathered (s : State) (d : Data.t) :
  type_is d "error" = true ->
  (gathered (handleData s d) = gathered s /\
   error (handleData s d) = Data.error d /\
   isResearching (handleData s d) = false /\
   eventSourceRef (handleData s d) = closed <$> eventSourceRef s) /\
  (gathered (onerror s) = gathered s /\
   error (onerror s) = Some "Connection lost or server error" /\
   isResearching (onerror s) = false /\
   eventSourceRef (onerror s) = closed <$> eventSourceRef s).
Proof.
  intros Ht. split.
  - rewrite (handleData_error _ _ Ht). apply onErrorEvent_effect.
  - unfold onerror, closeEventSource, gathered.
    destruct s as [? ? ? ? ? [es|]]; cbn; repeat split; reflexivity.
Qed.

Lemma failures_keep_what_was_gathered_witness :
  let s := process startedJob
             [queryMsg "query_generated" "acme revenue" "news" 1;
              curationMsg "news" 4; chunkMsg "Acme is"] in
  let d := Data.mk (Some "error") None None None None None None None None
             None None None None (Some "Research failed") in
  gathered (handleData s d) = gathered s /\
  error (handleData s d) = Some "Research failed" /\
  gathered (onerror s) = gathered s.
Proof.
  cbv zeta.
  pose proof (failures_keep_what_was_gathered
    (process startedJob
       [queryMsg "query_generated" "acme revenue" "news" 1;
        curationMsg "news" 4; chunkMsg "Acme is"])
    (Data.mk (Some "error") None None None None None None None None
       None None None None (Some "Research failed")) eq_refl) as [(H1 & H2 & _) (H3 & _)].
  repeat split; assumption.
Defined.

(** ** The status box *)

Lemma ResearchStatus_some
    (st : ResearchStatusType) (err : option string) (done : bool)
    (p : option Phase) :
  ResearchStatus (Some st) err done p =
    Some {| icon := if truthy_text err then XCircle
                    else if step_is st "Complete" || done then CheckCircle2
                    else Loader2;
            heading := step st;
            text := if truthy_text err then str_of_text err else message st |}.
Proof.
  unfold ResearchStatus. f_equal. f_equal.
  - repeat case_match; reflexivity.
  - destruct err as [e|]; cbn; [|reflexivity]. now destruct (String.eqb e "").
Qed.

(** X10.  The status box is drawn exactly when there is a status, and its
    icon does not depend on the phase or on the status message: it is the
    error icon when an error text is set, else the check mark when the step
    is "Complete" or the job is complete, else the spinner.  The text is
    the error text when there is one, else the status message. *)
Theorem status_icon_ignores_phase
    (st : ResearchStatusType) (err : option string) (done : bool)
    (p : option Phase) :
  ResearchStatus None err done p = None /\
  ResearchStatus (Some st) err done p =
    Some {| icon := if truthy_text err then XCircle
                    else if step_is st "Complete" || done then CheckCircle2
                    else Loader2;
            heading := step st;
            text := if truthy_text err then str_of_text err else message st |}.
Proof. split; [reflexivity|apply ResearchStatus_some]. Qed.

(** X11.  An error message shows as an error only when it carries a
    non-empty error text: the error banner and the error icon of the
    status box appear exactly then.  An error message without a text still
    ends the job and closes the handle, with no error shown. *)
Theorem error_shown_only_with_text (s : State) (d : Data.t) :
  type_is d "error" = true ->
  showError (handleData s d) = truthy_text (Data.error d) /\
  (forall v, statusBox (handleData s d) = Some v ->
             (icon v = XCircle <-> truthy_text (Data.error d) = true)) /\
  isResearching (handleData s d) = false.
Proof.
  intros Ht. rewrite (handleData_error _ _ Ht).
  destruct (onErrorEvent_effect s d) as (Hg & He & Hr & _).
  unfold showError, statusBox. rewrite He. split; [reflexivity|].
  split; [|exact Hr]. intros v.
  destruct (status (onErrorEvent d s)) as [st|]; [|discriminate].
  rewrite ResearchStatus_some. intros [= <-]. cbn.
  split; repeat case_match; congruence.
Qed.

Lemma error_shown_only_with_text_witness :
  let s := handleData startedJob (curationMsg "news" 4) in
  showError (handleData s (Data.of_type "error")) = false /\
  isResearching (handleData s (Data.of_type "error")) = false.
Proof.
  cbv zeta.
  destruct (error_shown_only_with_text
              (handleData startedJob (curationMsg "news" 4))
              (Data.of_type "error") eq_refl) as (H1 & _ & H3).
  split; assumption.
Defined.

(** ** The queries panel *)

Lemma size_insert_pos {A} (m : gmap string A) (k : string) (v : A) :
  Nat.ltb 0 (size (<[k := v]> m)) = true.
Proof.
  apply Nat.ltb_lt.
  assert (size (<[k := v]> m) <> 0%nat); [|lia].
  rewrite map_size_non_empty_iff. apply insert_non_empty.
Qed.

Lemma streamingQueries_handleData (s : State) (d : Data.t) :
  streamingQueries (handleData s d) =
  if type_is d "query_generating"
  then <[queryKey d := {| sq_text := Data.query d;
                          sq_number := Data.query_number d;
                          sq_category := Data.category d;
                          sq_isComplete := false |}]> (streamingQueries s)
  else if type_is d "query_generated"
  then delete (queryKey d) (streamingQueries s)
  else streamingQueries s.
Proof.
  by_branch.
  14:{ now rewrite (Hnot "query_generating"), (Hnot "query_generated")
         by (cbn; tauto). }
  all: cbn [String.eqb Ascii.eqb Bool.eqb]; untouched s.
Qed.

Lemma showQueries_handleData (s : State) (d : Data.t) :
  showQueries s = true -> showQueries (handleData s d) = true.
Proof.
  unfold showQueries. intros Hs.
  rewrite queries_handleData, streamingQueries_handleData.
  destruct (type_is d "query_generating") eqn:Eg.
  { rewrite size_insert_pos. apply orb_true_r. }
  destruct (type_is d "query_generated").
  - rewrite length_app. cbn [length].
    replace (Nat.ltb 0 (length (queries s) + 1)) with true; [reflexivity|].
    symmetry. apply Nat.ltb_lt. lia.
  - now rewrite app_nil_r.
Qed.

(** X12.  Once the queries panel is shown it stays shown along any run of
    messages: finishing a streaming query moves it to the finalized list,
    and nothing else removes a query. *)
Theorem queries_panel_stays_visible (s : State) (ds : list Data.t) :
  showQueries s = true -> showQueries (process s ds) = true.
Proof.
  revert s. induction ds as [|d ds IH]; intros s Hs; [exact Hs|].
  rewrite process_cons. apply IH. now apply showQueries_handleData.
Qed.

Lemma queries_panel_stays_visible_witness :
  showQueries
    (process (handleData startedJob (queryMsg "query_generating" "acme" "news" 1))
       [queryMsg "query_generated" "acme revenue" "news" 1;
        curationMsg "news" 4; completeMsg (Some "final")]) = true.
Proof.
  apply queries_panel_stays_visible. reflexivity.
Defined.

(** ** Reset and what the page shows *)

(** X13.  After the reset callback has run the page shows no status box, no
    error, no report, no briefings, no curation panel and no queries panel,
    and none of the three exports has anything to export. *)
Theorem reset_blanks_the_page (p : Page) (s : State) :
  app p = fire ResetState s ->
  statusBox (app p) = None /\
  showError (app p) = false /\ showReport (app p) = false /\
  showBriefings (app p) = false /\ showCuration (app p) = false /\
  showQueries (app p) = false /\
  pdfRequest p = None /\ markdownDownload p = None /\ clipboardText p = None.
Proof.
  intros Hp. unfold pdfRequest, markdownDownload, clipboardText. rewrite Hp.
  destruct s; cbn. repeat split; reflexivity.
Qed.

Lemma reset_blanks_the_page_witness :
  let s := process startedJob
             [queryMsg "query_generated" "acme revenue" "news" 1;
              curationMsg "news" 4; completeMsg (Some "final")] in
  let p := {| app := fire ResetState (resetResearch s);
              originalCompanyName := "Acme";
              isGeneratingPdf := false; isCopied := false |} in
  statusBox (app p) = None /\
  showError (app p) = false /\ showReport (app p) = false /\
  showBriefings (app p) = false /\ showCuration (app p) = false /\
  showQueries (app p) = false /\
  pdfRequest p = None /\ markdownDownload p = None /\ clipboardText p = None.
Proof.
  cbv zeta. eapply reset_blanks_the_page. reflexivity.
Defined.

(** ** The report and the exports *)

Lemma truthy_text_inv (v : option string) :
  truthy_text v = true -> exists c, v = Some c /\ c <> "".
Proof.
  destruct v as [c|]; [|discriminate]. cbn.
  destruct (String.eqb_spec c ""); [discriminate|eauto].
Qed.

Lemma append_nonempty_r (a b : string) : b <> "" -> a +:+ b <> "".
Proof. destruct a; cbn; [trivial|discriminate]. Qed.

Lemma reportNonEmpty_handleData (s : State) (d : Data.t) :
  reportNonEmpty s -> reportNonEmpty (handleData s d).
Proof.
  unfold reportNonEmpty. intros Hs. by_branch; try untouched s.
  - destruct (truthy_text_inv _ Htruthy) as (c & -> & Hc).
    destruct s; cbn in *. intros o [= <-]. cbn.
    now apply append_nonempty_r.
  - destruct (truthy_text_inv _ Htruthy) as (r & -> & Hr).
    destruct s as [? ? ? ? ? [es|]]; cbn in *; intros o [= <-]; exact Hr.
Qed.

Lemma reportNonEmpty_process (s : State) (ds : list Data.t) :
  reportNonEmpty s -> reportNonEmpty (process s ds).
Proof.
  revert s. induction ds as [|d ds IH]; intros s Hs; [exact Hs|].
  rewrite process_cons. apply IH. now apply reportNonEmpty_handleData.
Qed.

(** X14.  Along any run of messages an output, when there is one, holds a
    non-empty report: chunks and final reports are only taken when
    non-empty. *)
Theorem report_never_empty (s : State) (ds : list Data.t) :
  reportNonEmpty s -> reportNonEmpty (process s ds).
Proof. apply reportNonEmpty_process. Qed.

Lemma report_never_empty_witness :
  reportNonEmpty
    (process startedJob [chunkMsg ""; chunkMsg "Acme"; completeMsg (Some "")]).
Proof.
  apply report_never_empty. intros o H. discriminate.
Defined.

(** X15.  On a page whose output, when there is one, holds a non-empty
    report (every state the messages lead to), and with no PDF being
    generated, the three exports are offered together, exactly when the
    report is shown; the PDF request then carries a non-empty report and
    a non-empty company name (the report itself when no name was
    entered). *)
Theorem exports_offered_together (p : Page) :
  reportNonEmpty (app p) -> isGeneratingPdf p = false ->
  (is_Some (pdfRequest p) <-> showReport (app p) = true) /\
  (is_Some (markdownDownload p) <-> showReport (app p) = true) /\
  (is_Some (clipboardText p) <-> showReport (app p) = true) /\
  (forall r n, pdfRequest p = Some (r, n) -> r <> "" /\ n <> "").
Proof.
  unfold reportNonEmpty, pdfRequest, markdownDownload, clipboardText,
    showReport, currentReport, nonEmpty.
  intros Hne Hgen. rewrite Hgen.
  destruct (output (app p)) as [o|].
  - specialize (Hne o eq_refl). apply String.eqb_neq in Hne as Hb. rewrite Hb.
    cbn. do 3 (split; [split; eauto|]).
    intros r n [= <- <-]. split; [exact Hne|].
    destruct (String.eqb_spec (originalCompanyName p) ""); congruence.
  - cbn. do 3 (split; [split; [intros [? ?]; discriminate|discriminate]|]).
    discriminate.
Qed.

Lemma exports_offered_together_witness :
  let p := {| app := process startedJob [chunkMsg "Acme"; completeMsg (Some "Acme Inc.")];
              originalCompanyName := "";
              isGeneratingPdf := false; isCopied := false |} in
  pdfRequest p = Some ("Acme Inc.", "Acme Inc.") /\
  (is_Some (pdfRequest p) <-> showReport (app p) = true).
Proof.
  cbv zeta. split; [reflexivity|].
  eapply exports_offered_together; [|reflexivity].
  apply reportNonEmpty_process. intros o H. discriminate.
Defined.

(** ** The company URL *)

Lemma nonEmpty_true (s : string) : nonEmpty s = true <-> s <> "".
Proof.
  unfold nonEmpty. destruct (String.eqb_spec s ""); cbn; split; congruence.
Qed.

(** X16.  The company URL sent with a request is absent exactly when the
    field is empty.  A value that starts with http:// or https:// is sent
    exactly as typed; any other non-empty value is sent with https:// put
    in front.  So what is sent always starts with one of the two, and
    formatting a formatted URL changes nothing. *)
Theorem company_url_gets_a_scheme :
  (forall u, formatCompanyUrl u = None <-> u = "") /\
  (forall u,
     startsWith u "http://" || startsWith u "https://" = true ->
     formatCompanyUrl u = Some u) /\
  (forall u, u <> "" ->
     startsWith u "http://" = false -> startsWith u "https://" = false ->
     formatCompanyUrl u = Some ("https://" +:+ u)) /\
  (forall u v, formatCompanyUrl u = Some v ->
     startsWith v "http://" || startsWith v "https://" = true /\
     formatCompanyUrl v = Some v).
Proof.
  split; [|split; [|split]].
  - intros u. unfold formatCompanyUrl.
    destruct (nonEmpty u) eqn:E.
    + apply nonEmpty_true in E. split; [|contradiction].
      now destruct (_ || _).
    + split; [intros _|reflexivity].
      destruct (String.eqb_spec u ""); [assumption|].
      unfold nonEmpty in E. apply String.eqb_neq in n. now rewrite n in E.
  - intros u Hs. unfold formatCompanyUrl. rewrite Hs.
    destruct u; [discriminate Hs|reflexivity].
  - intros u Hu H1 H2. unfold formatCompanyUrl.
    apply nonEmpty_true in Hu. now rewrite Hu, H1, H2.
  - intros u v. unfold formatCompanyUrl.
    destruct (nonEmpty u) eqn:E; [|discriminate].
    destruct (startsWith u "http://" || startsWith u "https://") eqn:Es;
      intros [= <-].
    + now rewrite E, Es.
    + assert (Hp : startsWith ("https://" +:+ u) "https://" = true)
        by (unfold startsWith; cbn; now destruct u).
      rewrite Hp, orb_true_r. split; reflexivity.
Qed.

Lemma company_url_gets_a_scheme_witness :
  formatCompanyUrl "http://acme.com" = Some "http://acme.com" /\
  formatCompanyUrl "https://acme.com" = Some "https://acme.com" /\
  formatCompanyUrl "acme.com" = Some "https://acme.com" /\
  formatCompanyUrl "https://acme.com" = Some "https://acme.com".
Proof.
  split; [|split; [|split]].
  - apply (proj1 (proj2 company_url_gets_a_scheme)). reflexivity.
  - apply (proj1 (proj2 company_url_gets_a_scheme)). reflexivity.
  - apply (proj1 (proj2 (proj2 company_url_gets_a_scheme)));
      [discriminate|reflexivity|reflexivity].
  - apply (proj2 (proj2 (proj2 company_url_gets_a_scheme)) "acme.com").
    reflexivity.
Defined.

(** ** The competitor list *)

Arguments isWhiteSpace : simpl never.

Lemma startsClean_trimStart (s : string) : startsClean (trimStart s).
Proof.
  induction s as [|c s IH]; cbn; [exact I|].
  destruct (isWhiteSpace c) eqn:E; [exact IH|exact E].
Qed.

Lemma trimStart_clean (s : string) : startsClean s -> trimStart s = s.
Proof. destruct s as [|c s]; cbn; [reflexivity|now intros ->]. Qed.

Lemma startsClean_trimEnd (s : string) : startsClean s -> startsClean (trimEnd s).
Proof.
  destruct s as [|c s]; cbn; [trivial|]. intros Hc.
  destruct (trimEnd s); [now rewrite Hc|exact Hc].
Qed.

Lemma trimEnd_idem (s : string) : trimEnd (trimEnd s) = trimEnd s.
Proof.
  induction s as [|c s IH]; [reflexivity|]. cbn.
  destruct (trimEnd s) as [|k ks] eqn:E.
  - destruct (isWhiteSpace c) eqn:Ec; [reflexivity|]. cbn. now rewrite Ec.
  - change (trimEnd (String c (String k ks))) with
      (match trimEnd (String k ks) with
       | EmptyString => if isWhiteSpace c then EmptyString else String c EmptyString
       | kept => String c kept
       end).
    now rewrite IH.
Qed.

Lemma trim_idem (s : string) : trim (trim s) = trim s.
Proof.
  unfold trim.
  rewrite (trimStart_clean (trimEnd (trimStart s)))
    by (apply startsClean_trimEnd, startsClean_trimStart).
  apply trimEnd_idem.
Qed.

Lemma hasChar_trimStart (a : Ascii.ascii) (s : string) :
  hasChar a s = false -> hasChar a (trimStart s) = false.
Proof.
  induction s as [|c s IH]; cbn; [trivial|]. intros H.
  apply orb_false_iff in H as [Hc Hs].
  destruct (isWhiteSpace c); [now apply IH|]. cbn. now rewrite Hc, Hs.
Qed.

Lemma hasChar_trimEnd (a : Ascii.ascii) (s : string) :
  hasChar a s = false -> hasChar a (trimEnd s) = false.
Proof.
  induction s as [|c s IH]; cbn; [trivial|]. intros H.
  apply orb_false_iff in H as [Hc Hs]. specialize (IH Hs).
  destruct (trimEnd s); [destruct (isWhiteSpace c)|]; cbn in *;
    rewrite ?Hc; auto.
Qed.

Lemma hasChar_split (sep : Ascii.ascii) (s : string) :
  Forall (fun piece => hasChar sep piece = false) (split sep s).
Proof.
  induction s as [|c s IH]; cbn; [now constructor|].
  destruct (Ascii.eqb c sep) eqn:E; [now constructor|].
  destruct (split sep s) as [|piece pieces].
  - constructor; [cbn; now rewrite E|constructor].
  - inversion IH as [|? ? Hp Hps]; subst.
    constructor; [cbn; now rewrite E, Hp|exact Hps].
Qed.

(** X17.  Every competitor sent with a request is non-empty, free of
    commas and free of white space at both ends; an empty competitors
    field gives the empty list. *)
Theorem competitors_are_clean (competitors : string) (c : string) :
  In c (parseCompetitors competitors) ->
  c <> "" /\ trim c = c /\ hasChar comma c = false.
Proof.
  unfold parseCompetitors. destruct (nonEmpty competitors); [|contradiction].
  intros H. apply List.filter_In in H as [Hin Hne].
  apply in_map_iff in Hin as (piece & <- & Hpiece).
  split; [now apply nonEmpty_true|]. split; [apply trim_idem|].
  unfold trim. apply hasChar_trimEnd, hasChar_trimStart.
  pose proof (hasChar_split comma competitors) as Hall.
  rewrite List.Forall_forall in Hall. now apply Hall.
Qed.

Lemma competitors_are_clean_witness :
  parseCompetitors " Globex ,, Initech,  " = ["Globex"; "Initech"] /\
  ("Initech" <> "" /\ trim "Initech" = "Initech" /\ hasChar comma "Initech" = false).
Proof.
  split; [reflexivity|].
  apply (competitors_are_clean " Globex ,, Initech,  ").
  vm_compute. tauto.
Defined.

Lemma split_no_sep (sep : Ascii.ascii) (a : string) :
  hasChar sep a = false -> split sep a = [a].
Proof.
  induction a as [|c a IH]; cbn; [reflexivity|]. intros H.
  apply orb_false_iff in H as [Hc Ha]. now rewrite Hc, (IH Ha).
Qed.

Lemma split_app_sep (sep : Ascii.ascii) (a b : string) :
  hasChar sep a = false ->
  split sep (a +:+ String sep b) = a :: split sep b.
Proof.
  induction a as [|c a IH]; intros H.
  - change (split sep (String sep b) = "" :: split sep b).
    cbn [split]. now rewrite Ascii.eqb_refl.
  - cbn in H. apply orb_false_iff in H as [Hc Ha].
    change (String c a +:+ String sep b) with (String c (a +:+ String sep b)).
    cbn [split]. now rewrite Hc, (IH Ha).
Qed.

Lemma split_join (pieces : list string) :
  pieces <> [] ->
  Forall (fun piece => hasChar comma piece = false) pieces ->
  split comma (join "," pieces) = pieces.
Proof.
  induction pieces as [|a rest IH]; [contradiction|]. intros _ Hall.
  inversion Hall as [|? ? Ha Hrest]; subst.
  destruct rest as [|b rest'].
  - cbn. now apply split_no_sep.
  - change (join "," (a :: b :: rest'))
      with (a +:+ String comma (join "," (b :: rest'))).
    rewrite (split_app_sep comma a _ Ha). f_equal.
    apply IH; [discriminate|exact Hrest].
Qed.

Lemma join_empty (pieces : list string) :
  join "," pieces = "" -> pieces = [] \/ pieces = [""].
Proof.
  destruct pieces as [|a [|b rest]]; cbn; [auto| |].
  - intros ->. auto.
  - destruct a; discriminate.
Qed.

(** X18.  Parsing undoes joining: for entries that hold no comma, the
    competitors parsed from their comma-joined text are the entries
    trimmed, with the empty ones dropped, in the same order.  So a list of
    clean names (non-empty, trimmed, comma-free) typed with commas
    between them is sent exactly as typed. *)
Theorem competitors_parse_inverts_join (entries : list string) :
  Forall (fun e => hasChar comma e = false) entries ->
  parseCompetitors (join "," entries) = List.filter nonEmpty (map trim entries) /\
  (Forall (fun e => e <> "" /\ trim e = e) entries ->
   parseCompetitors (join "," entries) = entries).
Proof.
  intros Hall.
  assert (Hparse : parseCompetitors (join "," entries) =
                   List.filter nonEmpty (map trim entries)).
  { unfold parseCompetitors. destruct (nonEmpty (join "," entries)) eqn:E.
    - rewrite split_join; [reflexivity| |exact Hall].
      intros ->. discriminate.
    - destruct (String.eqb_spec (join "," entries) "") as [Hj|Hj].
      + destruct (join_empty _ Hj) as [-> | ->]; reflexivity.
      + apply nonEmpty_true in Hj. congruence. }
  split; [exact Hparse|]. intros Hclean. rewrite Hparse.
  clear Hparse Hall. induction Hclean as [|e es [Hne Htrim] _ IH]; [reflexivity|].
  cbn. rewrite Htrim. apply nonEmpty_true in Hne. now rewrite Hne, IH.
Qed.

Lemma competitors_parse_inverts_join_witness :
  parseCompetitors (join "," ["Globex"; "Initech Inc"; "Umbrella"]) =
  ["Globex"; "Initech Inc"; "Umbrella"].
Proof.
  apply (competitors_parse_inverts_join ["Globex"; "Initech Inc"; "Umbrella"]).
  - repeat constructor.
  - repeat constructor; discriminate.
Defined.

(** ** Submitting the form *)






(** What a submission leaves of the previous job. *)
Lemma prepareSubmit_keeps (s : State) :
  isComplete s = false ->
  (output (prepareSubmit s), currentPhase (prepareSubmit s),
   queries (prepareSubmit s), streamingQueries (prepareSubmit s),
   enrichmentCounts (prepareSubmit s), briefingStatus (prepareSubmit s)) =
  (output s, currentPhase s, queries s, streamingQueries s,
   enrichmentCounts s, briefingStatus s).
Proof.
  unfold prepareSubmit, clearExistingConnection, clearExistingConnectionIn,
    closeEventSource.
  destruct s as [? ? ? ? ? [es|]]; cbn; now intros ->.
Qed.

(** X20.  A submission clears what the previous job gathered only when
    that job is complete.  After a job that failed or is still running, the
    new submission keeps its report, phase, finalized and streaming
    queries, counters and briefing flags, whatever the request's outcome;
    after a complete job they are all back to their initial values. *)
Theorem submission_resets_only_after_completion
    (p : Page) (formData : FormData) (outcome : Outcome) :
  let s := app p in
  let s' := app (handleFormSubmit p formData outcome) in
  (isComplete s = false ->
     (output s', currentPhase s', queries s', streamingQueries s',
      enrichmentCounts s', briefingStatus s') =
     (output s, currentPhase s, queries s, streamingQueries s,
      enrichmentCounts s, briefingStatus s)) /\
  (isComplete s = true ->
     (output s', currentPhase s', queries s', streamingQueries s',
      enrichmentCounts s', briefingStatus s') =
     (None, None, [], ∅, None, noBriefings)).
Proof.
  cbv zeta. unfold handleFormSubmit. cbn [app]. split; intros Hc.
  - rewrite <- (prepareSubmit_keeps _ Hc).
    destruct (prepareSubmit (app p)).
    destruct outcome as [[m|]|[|] st job]; cbn; try reflexivity.
    now destruct (truthy_text job).
  - assert (Hp : (output (prepareSubmit (app p)),
                  currentPhase (prepareSubmit (app p)),
                  queries (prepareSubmit (app p)),
                  streamingQueries (prepareSubmit (app p)),
                  enrichmentCounts (prepareSubmit (app p)),
                  briefingStatus (prepareSubmit (app p))) =
                 (None, None, [], ∅, None, noBriefings)).
    { unfold prepareSubmit, clearExistingConnection, clearExistingConnectionIn,
    closeEventSource.
      rewrite Hc. destruct (app p) as [? ? ? ? ? [es|]]; reflexivity. }
    rewrite <- Hp. destruct (prepareSubmit (app p)).
    destruct outcome as [[m|]|[|] st job]; cbn; try reflexivity.
    now destruct (truthy_text job).
Qed.

Lemma submission_resets_only_after_completion_witness :
  let failed := process startedJob
                  [queryMsg "query_generated" "acme revenue" "news" 1;
                   Data.of_type "error"] in
  let p := {| app := failed; originalCompanyName := "Acme";
              isGeneratingPdf := false; isCopied := false |} in
  let f := {| companyName := "Globex"; companyUrl := ""; companyHq := "";
              companyIndustry := ""; competitors := ""; tone := Formal |} in
  let s' := app (handleFormSubmit p f (Responded true 200 (Some "job-2"))) in
  (output s', currentPhase s', queries s', streamingQueries s',
   enrichmentCounts s', briefingStatus s') =
  (output failed, currentPhase failed, queries failed, streamingQueries failed,
   enrichmentCounts failed, briefingStatus failed).
Proof.
  cbv zeta.
  apply (proj1 (submission_resets_only_after_completion
    {| app := process startedJob
                [queryMsg "query_generated" "acme revenue" "news" 1;
                 Data.of_type "error"];
       originalCompanyName := "Acme";
       isGeneratingPdf := false; isCopied := false |}
    {| companyName := "Globex"; companyUrl := ""; companyHq := "";
       companyIndustry := ""; competitors := ""; tone := Formal |}
    (Responded true 200 (Some "job-2")))).
  reflexivity.
Defined.

(** ** The loader colour *)

Lemma indexAfter_mod (n : nat) : indexAfter n = (n mod 6)%nat.
Proof.
  induction n as [|n IH]; [reflexivity|].
  cbn [indexAfter]. unfold nextIndex. rewrite IH.
  change (length colors) with 6%nat.
  rewrite Nat.Div0.add_mod_idemp_l. f_equal. lia.
Qed.

(** X21.  While a job runs the loader walks the six colours in order and
    starts over: the n-th tick shows colour n mod 6 of the palette, so the
    colour repeats every six ticks and two successive ticks never show the
    same colour. *)
Theorem loader_colour_cycles (n : nat) :
  loaderColorAfter n = nth (n mod 6) colors "" /\
  In (loaderColorAfter n) colors /\
  loaderColorAfter (n + 6) = loaderColorAfter n /\
  loaderColorAfter (S n) <> loaderColorAfter n.
Proof.
  unfold loaderColorAfter. rewrite !indexAfter_mod.
  assert (H6 : ((n + 6) mod 6 = n mod 6)%nat).
  { replace (n + 6)%nat with (n + 1 * 6)%nat by lia. apply Nat.Div0.mod_add. }
  assert (HS : (S n mod 6 = (n mod 6 + 1) mod 6)%nat).
  { rewrite Nat.Div0.add_mod_idemp_l. f_equal. lia. }
  rewrite H6, HS.
  assert (Hlt : (n mod 6 < 6)%nat) by (apply Nat.mod_upper_bound; lia).
  destruct (n mod 6)%nat as [|[|[|[|[|[|k]]]]]]; [..|lia];
    (split; [reflexivity|]); (split; [cbn; tauto|]);
    (split; [reflexivity|discriminate]).
Qed.

(** ** Labels and phases of progress messages *)

Lemma stepMap_entries (n label : string) :
  stepMap !! n = Some label ->
  In (n, label)
    [("grounding", "Search"); ("financial_analyst", "Search");
     ("news_scanner", "Search"); ("industry_analyst", "Search");
     ("company_analyst", "Search"); ("collector", "Search");
     ("curator", "Enriching"); ("enricher", "Enriching");
     ("briefing", "Briefing"); ("editor", "Finalizing")].
Proof.
  intros H. apply elem_of_list_to_map_2 in H. now apply list_elem_of_In.
Qed.

(** X22.  For a progress message whose step is in the label table, the
    label shown and the phase set agree: a step labelled Search sets the
    phase search, Enriching sets enrichment, Briefing sets briefing, and
    the one remaining label, Finalizing (step editor), leaves the phase
    alone. *)
Theorem progress_label_and_phase_agree (s : State) (n label : string) :
  stepMap !! n = Some label ->
  step <$> status (handleData s (progressMsg n)) = Some (Label label) /\
  currentPhase (handleData s (progressMsg n)) =
    match labelPhase label with
    | Some ph => Some ph
    | None => currentPhase s
    end /\
  (labelPhase label = None <-> n = "editor").
Proof.
  intros H. apply stepMap_entries in H. cbn in H.
  repeat (destruct H as [[= <- <-]|H];
          [destruct s; cbn; repeat split; congruence|]).
  contradiction.
Qed.

Lemma progress_label_and_phase_agree_witness :
  step <$> status (handleData startedJob (progressMsg "curator")) =
    Some (Label "Enriching") /\
  currentPhase (handleData startedJob (progressMsg "curator")) = Some enrichment /\
  (labelPhase "Enriching" = None <-> "curator" = "editor").
Proof.
  apply (progress_label_and_phase_agree startedJob "curator" "Enriching").
  reflexivity.
Defined.

(** ** Reset, cell by cell *)

(** X23.  The reset callback puts every state cell of the stream back to
    its initial value except three it does not write: [isResearching], the
    connection handle and the timers already requested.  Running it twice
    is the same as running it once. *)
Theorem reset_restores_initial_cells (s : State) :
  fire ResetState s =
    {| isResearching := isResearching s; status := None; output := None;
       error := None; isComplete := false;
       eventSourceRef := eventSourceRef s; currentPhase := None;
       isResetting := false; queries := []; streamingQueries := ∅;
       isQueriesExpanded := true; enrichmentCounts := None;
       briefingStatus := noBriefings; isEnrichmentExpanded := true;
       isBriefingExpanded := true; isReportStreaming := false;
       timeouts := timeouts s |} /\
  fire ResetState (fire ResetState s) = fire ResetState s /\
  fire ResetState initialState = initialState.
Proof. destruct s; cbn. repeat split; reflexivity. Qed.

(** ** Reset where the component invokes it *)







